(** * emscripten-component-base: the adapter around an Emscripten module

    A shallow embedding of [manager.js] (the base class [Manager]) and of
    [manager-module.js] (the subclass [ModuleManager]), and the properties
    of the adapter proved over it.

    The adapter's own code is embedded as Rocq functions.  Everything the
    adapter does not define itself (the wrapped module, the DOM, the
    caller's callbacks) is the _host_: an abstract state with pure property
    reads and effectful calls, over which every theorem quantifies. *)

From Stdlib Require Import ZArith QArith Qround String List Bool Lia.
From stdpp Require Import base option list gmap strings.

Local Open Scope string_scope.
Local Open Scope Z_scope.

(** ** JavaScript values *)

(** References to objects the adapter receives or reaches: the two globals
    it names, the manager object itself, the one object literal the
    constructor creates ([userOptions.initialModule || {}]), and the objects
    of the host. *)
Inductive Ref :=
  | Window
  | Document
  | Self
  | EmptyObject
  | Obj (id : nat).

(** Numbers are rationals: every finite double is one.  [NaN] and the
    infinities are left out. *)
Inductive Value :=
  | VUndefined
  | VNull
  | VBool (b : bool)
  | VNum (n : Q)
  | VStr (s : string)
  | VRef (r : Ref).

#[global] Instance Ref_eq_dec : EqDecision Ref.
Proof. solve_decision. Defined.

Definition window : Value := VRef Window.
Definition document : Value := VRef Document.

(** [ToBoolean]: what [if (v)], [!v] and [v || w] test. *)
Definition truthy (v : Value) : bool :=
  match v with
  | VUndefined | VNull => false
  | VBool b => b
  | VNum n => negb (Qeq_bool n 0)
  | VStr s => negb (String.eqb s "")
  | VRef _ => true
  end.

(** [a === b] and [a !== b]: same type and same value, objects compared by
    identity. *)
Definition strict_eq (a b : Value) : bool :=
  match a, b with
  | VUndefined, VUndefined => true
  | VNull, VNull => true
  | VBool x, VBool y => Bool.eqb x y
  | VNum x, VNum y => Qeq_bool x y
  | VStr x, VStr y => String.eqb x y
  | VRef x, VRef y => bool_decide (x = y)
  | _, _ => false
  end.

Definition strict_ne (a b : Value) : bool := negb (strict_eq a b).

(** A plain object used as a record of named properties.  Reading a
    property that is not there gives [undefined]. *)
Abbreviation Object := (gmap string Value).

Definition prop (o : Object) (k : string) : Value := default VUndefined (o !! k).

(** Object spread: [{...a, ...b}] copies the own properties of [a] into a
    fresh object and then those of [b], a later one replacing an earlier
    one of the same name. *)
Definition spread_into (src acc : Object) : Object :=
  map_fold (fun k v o => <[k := v]> o) acc src.

Definition spread2 (a b : Object) : Object :=
  spread_into b (spread_into a ∅).

(** ** [manager.js]: options *)

Module Options.

(** The object literal [defaultOptions]. *)
Definition defaultOptions : Object :=
  <["redirectCanvasRequests" := VBool true]>
  (<["captureFocusOnComponent" := VBool true]>
  (<["captureTabKey" := VBool false]>
  (<["resizeCanvasOnElementSizing" := VBool true]>
  (<["resizeCanvasOnFullscreenChange" := VBool true]>
  (<["adjustViewportByDevicePixelRatio" := VBool true]>
  (<["disposeCanvasOnAbort" := VBool true]> ∅)))))).

(** [__getDefaultOptionsForVersion(userOptions)]: the early return when no
    [emsdkVersion] is given, then a [switch] that has only a [default]
    arm. *)
Definition __getDefaultOptionsForVersion (userOptions : Object) : Object :=
  if negb (truthy (prop userOptions "emsdkVersion")) then defaultOptions
  else
    match prop userOptions "emsdkVersion" with
    | _ => defaultOptions
    end.

(** [__setOptions(userOptions)]: the value assigned to [this.__options]. *)
Definition __setOptions (userOptions : Object) : Object :=
  spread2 (__getDefaultOptionsForVersion userOptions) userOptions.


End Options.

(** ** [manager-module.js]: the patched [gl.viewport] *)

Module Viewport.

(** The backing store of [gl.canvas]: [canvas.width] and [canvas.height]
    are integers. *)
Record Canvas := { width : Z; height : Z }.

Definition Math_floor (q : Q) : Z := Qfloor q.

Section PatchedViewport.

(** [predefinedViewport.call(gl, x0, y0, w0, h0)]: the viewport function
    the context had before it was patched. *)
Context {R : Type} (predefinedViewport : Q -> Q -> Q -> Q -> R).

(** The product [w0 * dpr] of two numbers, however it is rounded. *)
Variable times : Q -> Q -> Q.

(** The closure [patchedViewport] that [patchedCreateContext] installs
    as [gl.viewport]; [dpr] is [window.devicePixelRatio] and [canvas]
    is [gl.canvas], both read when the function is called. *)
Definition patchedViewport (dpr : Q) (canvas : Canvas) (x0 y0 w0 h0 : Q) : R :=
  let '(w0, h0) :=
    if negb (Qeq_bool dpr 1) then
      let w := Math_floor (times w0 dpr) in
      let h := Math_floor (times h0 dpr) in
      let roundingError := 1 in
      if ((width canvas <=? w) && (w <=? roundingError + width canvas))
         && ((height canvas <=? h) && (h <=? roundingError + height canvas))
      then (inject_Z (width canvas), inject_Z (height canvas))
      else (w0, h0)
    else (w0, h0) in
  predefinedViewport x0 y0 w0 h0.

(** The rule as the documentation words it: scaled dimensions within
    one pixel of the backing store, on either side, snap to it. *)
Definition within_one_pixel (a b : Z) : bool := Z.abs (a - b) <=? 1.

Definition documented_viewport (dpr : Q) (canvas : Canvas) (x0 y0 w0 h0 : Q) : R :=
  if negb (Qeq_bool dpr 1)
     && within_one_pixel (Math_floor (times w0 dpr)) (width canvas)
     && within_one_pixel (Math_floor (times h0 dpr)) (height canvas)
  then predefinedViewport x0 y0 (inject_Z (width canvas)) (inject_Z (height canvas))
  else predefinedViewport x0 y0 w0 h0.

End PatchedViewport.

End Viewport.


(** ** The host: what the adapter talks to *)

(** A DOM event as the handlers read it. *)
Record Event := {
  evt_type : string;
  evt_target : Value;
  evt_srcElement : Value;
  evt_relatedTarget : Value;
  evt_keyCode : Value
}.

(** The value of [eventHandler.handlerFunc]: the function the wrapped
    module supplied, or one of the three closures the adapter puts around
    it, each with the variables it captures. *)
Inductive HandlerFunc :=
  | Predefined (f : Value)
  | KeyWrapper (predefinedHandlerFunc : HandlerFunc)
  | ResizeWrapper (options : Object) (canvasElement : Value)
      (predefinedHandlerFunc : HandlerFunc)
  | FullscreenchangeWrapper (canvasElement : Value)
      (predefinedHandlerFunc : HandlerFunc).

(** The [eventHandler] object the wrapped module hands to
    [JSEvents.registerOrRemoveHandler]; [otherProps] holds the properties
    the adapter never touches ([callbackfunc], [useCapture], ...). *)
Record EventHandler := {
  target : Value;
  eventTypeString : string;
  handlerFunc : HandlerFunc;
  otherProps : Object
}.

(** The other closures the adapter creates and hands to the host. *)
Inductive Closure :=
  | LocateFile (wasmPath : Value)
  | PrintHandler (predefinedPrint element : Value)
  | PrintErrHandler (predefinedPrintErr : Value)
  | AbortHandler (options : Object) (initialModule : Value)
  | FocusInvoker (componentElement : Value)
  | PatchedCreateContext (GL predefinedCreateContext : Value)
  | PatchedViewport (gl predefinedViewport : Value)
  | PatchedRegisterOrRemoveHandler (predefinedFunction : Value).

(** The object literal passed to the module factory.  [locateFile] comes
    before the spread of [__initialModule], which can replace it; the
    remaining properties come after the spread and replace the user's. *)
Record ModuleConfig := {
  cfg_locateFile : Closure;
  cfg_initialModule : Value;
  cfg_noInitialRun : Value;
  cfg_keyboardListeningElement : Value;
  cfg_canvas : Value;
  cfg_onAbort : Closure;
  cfg_print : Closure;
  cfg_printErr : Closure
}.

Inductive Arg :=
  | AVal (v : Value)
  | AEvent (e : Event)
  | AHandler (h : EventHandler)
  | AClosure (c : Closure)
  | AConfig (c : ModuleConfig).

(** The effectful interactions with the host. *)
Inductive Call :=
  | Invoke (receiver : Value) (method : string) (args : list Arg)
      (* receiver.method(...args) *)
  | Apply (f : Value) (thisArg : Value) (args : list Arg)
      (* f.apply(thisArg, args) *)
  | Assign (object : Value) (property : string) (v : Arg).
      (* object[property] = v *)

Inductive Exn :=
  | TypeError
  | Error (message : string)
  | Thrown (v : Value).

Inductive Result (A : Type) :=
  | Ok (a : A)
  | Throw (e : Exn).

Arguments Ok {A} a.
Arguments Throw {A} e.

(** The host over a state [E] of its own.  Property reads, [Object.keys],
    [instanceof] and the product of two numbers are pure; a call may change
    the host state and may throw.  For an [async] host function the result
    is what [await] gives: [Throw] for a rejected promise. *)
Record Host (E : Type) := {
  host_read : E -> Value -> string -> Value;
  host_keys : E -> Value -> list string;
  host_instanceof : E -> Value -> string -> bool;
  host_times : Value -> Value -> Value;
  host_call : Call -> E -> Result Value * E
}.

Arguments host_read {E} _ _ _ _.
Arguments host_keys {E} _ _ _.
Arguments host_instanceof {E} _ _ _ _.
Arguments host_times {E} _ _ _.
Arguments host_call {E} _ _ _.

(** The fields of a manager object. *)
Record ManagerObject := {
  __componentElement : Value;
  __canvasElement : Value;
  __consoleElement : Value;
  __initialModule : Value;
  __wasmPath : Value;
  __options : Object;
  _moduleFactory : Value;
  _moduleInstance : Value
}.

(** The state a method runs in: the manager object [this], the host state,
    and the calls made to the host so far (a ghost record, never read by
    the adapter). *)
Record State (E : Type) := {
  this : ManagerObject;
  env : E;
  trace : list Call
}.

Arguments this {E} _.
Arguments env {E} _.
Arguments trace {E} _.

(** ** Computations: state and exceptions *)

Definition M (E A : Type) : Type := State E -> Result A * State E.

Definition ret {E A} (a : A) : M E A := fun s => (Ok a, s).

Definition bind {E A B} (m : M E A) (k : A -> M E B) : M E B :=
  fun s =>
    match m s with
    | (Ok a, s') => k a s'
    | (Throw e, s') => (Throw e, s')
    end.

Definition throw {E A} (e : Exn) : M E A := fun s => (Throw e, s).

(** [try { body } catch (e) { handler }] *)
Definition try_catch {E A} (body : M E A) (handler : Exn -> M E A) : M E A :=
  fun s =>
    match body s with
    | (Ok a, s') => (Ok a, s')
    | (Throw e, s') => handler e s'
    end.

Declare Scope js_scope.
Delimit Scope js_scope with js.

Notation "'let*' x ':=' c 'in' k" := (bind c (fun x => k))
  (at level 10, x name, c at level 100, k at level 200) : js_scope.
Notation "c '>>' k" := (bind c (fun _ => k))
  (at level 90, right associativity) : js_scope.

Local Open Scope js_scope.

Definition get_this {E} : M E ManagerObject := fun s => (Ok (this s), s).

Definition set_this {E} (m : ManagerObject) : M E unit :=
  fun s => (Ok tt, {| this := m; env := env s; trace := trace s |}).

(** [list.forEach(f)]: an exception thrown by [f] ends the loop. *)
Fixpoint forEach {E A} (l : list A) (f : A -> M E Value) : M E Value :=
  match l with
  | [] => ret VUndefined
  | x :: l' => f x >> forEach l' f
  end.

Section HostAccess.

Context {E : Type} (host : Host E).

(** [o[p]]: a [TypeError] on [undefined] and [null], nothing on the empty
    object literal, otherwise what the host has. *)
Definition get_prop (o : Value) (p : string) : M E Value :=
  fun s =>
    match o with
    | VUndefined | VNull => (Throw TypeError, s)
    | VRef EmptyObject => (Ok VUndefined, s)
    | _ => (Ok (host_read host (env s) o p), s)
    end.

(** [Object.keys(o)] *)
Definition object_keys (o : Value) : M E (list string) :=
  fun s =>
    match o with
    | VUndefined | VNull => (Throw TypeError, s)
    | VRef EmptyObject => (Ok [], s)
    | _ => (Ok (host_keys host (env s) o), s)
    end.

(** [v instanceof C] for a constructor [C] of the host. *)
Definition instanceof (v : Value) (C : string) : M E bool :=
  fun s =>
    match v with
    | VRef EmptyObject => (Ok false, s)
    | VRef _ => (Ok (host_instanceof host (env s) v C), s)
    | _ => (Ok false, s)
    end.

Definition hostcall (c : Call) : M E Value :=
  fun s =>
    let (r, e') := host_call host c (env s) in
    (r, {| this := this s; env := e'; trace := trace s ++ [c] |}).

(** [receiver.method(...args)] *)
Definition invoke (receiver : Value) (method : string) (args : list Arg) : M E Value :=
  match receiver with
  | VUndefined | VNull | VRef EmptyObject => throw TypeError
  | _ => hostcall (Invoke receiver method args)
  end.

(** [f.apply(thisArg, args)]; [f(...args)] has [thisArg] undefined. *)
Definition apply (f : Value) (thisArg : Value) (args : list Arg) : M E Value :=
  hostcall (Apply f thisArg args).

(** [object[property] = v] *)
Definition assign (object : Value) (property : string) (v : Arg) : M E Value :=
  match object with
  | VUndefined | VNull => throw TypeError
  | _ => hostcall (Assign object property v)
  end.

End HostAccess.

(** ** [manager.js]: the base class [Manager] *)

Module Manager.

(** [constructor(componentElement, canvasElement, consoleElement,
    userOptions)]; the two fields of the subclass are not set yet. *)
Definition constructor
    (componentElement canvasElement consoleElement : Value)
    (userOptions : Object) : ManagerObject :=
  {| __componentElement := componentElement;
     __canvasElement := canvasElement;
     __consoleElement := consoleElement;
     __initialModule :=
       (if truthy (prop userOptions "initialModule")
        then prop userOptions "initialModule"
        else VRef EmptyObject);
     __wasmPath := prop userOptions "wasmPath";
     __options := Options.__setOptions userOptions;
     _moduleFactory := VUndefined;
     _moduleInstance := VUndefined |}.

(** The methods the class declares, in source order. *)
Inductive Method :=
  | m_constructor
  | m___setOptions
  | m___getDefaultOptionsForVersion
  | m_initialize
  | m_callMain
  | m_abort
  | m_pauseMainLoop
  | m_resumeMainLoop
  | m_requestFullscreen
  | m_exitFullscreen
  | m_onResizeCanvas
  | m__initializeModule
  | m___getLocateFile
  | m___isAbsoluteUrl
  | m__patchModule
  | m___disposeGlContexts
  | m___getPrintHandler
  | m___getPrintErrHandler.

Definition methods : list Method :=
  [ m_constructor; m___setOptions; m___getDefaultOptionsForVersion;
    m_initialize; m_callMain; m_abort; m_pauseMainLoop; m_resumeMainLoop;
    m_requestFullscreen; m_exitFullscreen; m_onResizeCanvas;
    m__initializeModule; m___getLocateFile; m___isAbsoluteUrl;
    m__patchModule; m___disposeGlContexts; m___getPrintHandler;
    m___getPrintErrHandler ].

(** Declared [async]. *)
Definition is_async (m : Method) : bool :=
  match m with
  | m_initialize | m_requestFullscreen | m_exitFullscreen
  | m__initializeModule => true
  | _ => false
  end.

(** A method whose whole body is [throw new Error(message)] has that
    message here; a method with an implementation has none. *)
Definition guard (m : Method) : option string :=
  match m with
  | m_initialize =>
      Some "Manager::initialize() not implemented by the subclass."
  | m_callMain =>
      Some "Manager::callMain() not implemented by the subclass."
  | m_abort =>
      Some "Manager::abort() not implemented by the subclass."
  | m_pauseMainLoop =>
      Some "Manager::pauseMainLoop() not implemented by the subclass."
  | m_resumeMainLoop =>
      Some "Manager::resumeMainLoop() not implemented by the subclass."
  | m_requestFullscreen =>
      Some "Manager::requestFullscreen() not implemented by the subclass."
  | m_exitFullscreen =>
      Some "Manager::exitFullscreen() not implemented by the subclass."
  | m_onResizeCanvas =>
      Some "Manager::onResizeCanvas() not implemented by the subclass."
  | m__initializeModule =>
      Some "Manager::_initializeModule() not implemented by the subclass."
  | m__patchModule =>
      Some "Manager::_patchModule() not implemented by subclass."
  | _ => None
  end.

(** How a call of a method whose body is a guard ends: a plain method
    throws to its caller, an [async] one returns a promise that is
    rejected with the error. *)
Inductive Outcome :=
  | Throws (e : Exn)
  | Rejects (e : Exn).

Definition call_guard (m : Method) : option Outcome :=
  match guard m with
  | Some message =>
      Some (if is_async m then Rejects (Error message)
            else Throws (Error message))
  | None => None
  end.

Definition raises_unimplemented (m : Method) : bool :=
  match call_guard m with
  | Some _ => true
  | None => false
  end.

Section WithHost.

Context {E : Type} (host : Host E).

(** The function passed to [forEach] in [__disposeGlContexts]. *)
Definition disposeContext (module : Value) (key : string) : M E Value :=
  try_catch
    (let* GL := get_prop host module "GL" in
     let* contexts := get_prop host GL "contexts" in
     let* context := get_prop host contexts key in
     let* GLctx := get_prop host context "GLctx" in
     let* extension :=
       invoke host GLctx "getExtension" [AVal (VStr "WEBGL_lose_context")] in
     (if truthy extension
      then invoke host extension "loseContext" []
      else ret VUndefined) >>
     let* GL := get_prop host module "GL" in
     invoke host GL "deleteContext" [AVal (VStr key)] >>
     ret VUndefined)
    (fun _ => ret VUndefined).

(** [__disposeGlContexts(module)] *)
Definition __disposeGlContexts (module : Value) : M E Value :=
  let* GL := get_prop host module "GL" in
  if negb (truthy GL) then ret VUndefined
  else
    let* GL := get_prop host module "GL" in
    let* contexts := get_prop host GL "contexts" in
    let* keys := object_keys host contexts in
    forEach keys (disposeContext module).

(** [__getPrintHandler()]: clears the console element, if there is one,
    and returns the closure. *)
Definition __getPrintHandler : M E Closure :=
  let* self := get_this in
  let* print := get_prop host (__initialModule self) "print" in
  let* isFunction := instanceof host print "Function" in
  let predefinedPrint := if isFunction then print else VNull in
  let element := __consoleElement self in
  (if truthy element
   then assign host element "value" (AVal (VStr ""))
   else ret VUndefined) >>
  ret (PrintHandler predefinedPrint element).

(** [__getPrintErrHandler()] *)
Definition __getPrintErrHandler : M E Closure :=
  let* self := get_this in
  let* printErr := get_prop host (__initialModule self) "printErr" in
  let* isFunction := instanceof host printErr "Function" in
  ret (PrintErrHandler (if isFunction then printErr else VNull)).

(** [__getLocateFile()] *)
Definition __getLocateFile : M E Closure :=
  let* self := get_this in
  ret (LocateFile (__wasmPath self)).

End WithHost.

End Manager.

(** ** [manager-module.js]: the subclass [ModuleManager] *)

Module ModuleManager.

(** [s.startsWith(t)] and [s.endsWith(t)] *)
Definition startsWith (s t : string) : bool := String.prefix t s.

Definition endsWith (s t : string) : bool :=
  String.prefix (String.rev t) (String.rev s).

(** [constructor(moduleFactory, componentElement, canvasElement,
    consoleElement, userOptions)] *)
Definition constructor
    (moduleFactory componentElement canvasElement consoleElement : Value)
    (userOptions : Object) : ManagerObject :=
  let super :=
    Manager.constructor componentElement canvasElement consoleElement
      userOptions in
  {| __componentElement := __componentElement super;
     __canvasElement := __canvasElement super;
     __consoleElement := __consoleElement super;
     __initialModule := __initialModule super;
     __wasmPath := __wasmPath super;
     __options := __options super;
     _moduleFactory := moduleFactory;
     _moduleInstance := _moduleInstance super |}.

(** [this._moduleInstance = v] *)
Definition set_moduleInstance (v : Value) (self : ManagerObject) : ManagerObject :=
  {| __componentElement := __componentElement self;
     __canvasElement := __canvasElement self;
     __consoleElement := __consoleElement self;
     __initialModule := __initialModule self;
     __wasmPath := __wasmPath self;
     __options := __options self;
     _moduleFactory := _moduleFactory self;
     _moduleInstance := v |}.

Definition write_moduleInstance {E} (v : Value) : M E unit :=
  fun s =>
    (Ok tt,
     {| this := set_moduleInstance v (this s);
        env := env s;
        trace := trace s |}).

Definition set_target (v : Value) (eventHandler : EventHandler) : EventHandler :=
  {| target := v;
     eventTypeString := eventTypeString eventHandler;
     handlerFunc := handlerFunc eventHandler;
     otherProps := otherProps eventHandler |}.

Definition set_handlerFunc (f : HandlerFunc) (eventHandler : EventHandler) : EventHandler :=
  {| target := target eventHandler;
     eventTypeString := eventTypeString eventHandler;
     handlerFunc := f;
     otherProps := otherProps eventHandler |}.

(** *** The three patches of an [eventHandler]

    Each returns what the JavaScript function returns together with the
    [eventHandler] object as the function leaves it. *)

(** [_patchKeyEventHandler(eventHandler)] *)
Definition _patchKeyEventHandler (self : ManagerObject) (eventHandler : EventHandler)
    : Value * EventHandler :=
  if strict_ne (target eventHandler) window
     || negb (startsWith (eventTypeString eventHandler) "key")
  then (VBool false, eventHandler)
  else
    let eventHandler :=
      if truthy (prop (__options self) "captureFocusOnComponent")
      then set_target (__componentElement self) eventHandler
      else eventHandler in
    let eventHandler :=
      if negb (truthy (prop (__options self) "captureTabKey"))
      then set_handlerFunc (KeyWrapper (handlerFunc eventHandler)) eventHandler
      else eventHandler in
    (VBool true, eventHandler).

(** [_patchResizeEventHandler(eventHandler)] *)
Definition _patchResizeEventHandler (self : ManagerObject) (eventHandler : EventHandler)
    : Value * EventHandler :=
  if strict_ne (target eventHandler) window
     || negb (String.eqb (eventTypeString eventHandler) "resize")
  then (VBool false, eventHandler)
  else
    let options := __options self in
    let canvasElement := __canvasElement self in
    (VBool true,
     set_handlerFunc
       (ResizeWrapper options canvasElement (handlerFunc eventHandler))
       eventHandler).

(** [_patchFullscreenchangedEventHandler(eventHandler)] *)
Definition _patchFullscreenchangedEventHandler
    (self : ManagerObject) (eventHandler : EventHandler)
    : Value * EventHandler :=
  if negb (truthy (prop (__options self) "resizeCanvasOnFullscreenChange"))
  then (VUndefined, eventHandler)
  else if strict_ne (target eventHandler) document
          || negb (endsWith (eventTypeString eventHandler) "fullscreenchange")
  then (VBool false, eventHandler)
  else
    let canvasElement := __canvasElement self in
    (VBool true,
     set_handlerFunc
       (FullscreenchangeWrapper canvasElement (handlerFunc eventHandler))
       eventHandler).

(** [patchKeyEventHandler(eventHandler) ||
     patchResizeEventHandler(eventHandler) ||
     patchFullscreenchangedEventHandler(eventHandler)]: the
    [eventHandler] object afterwards. *)
Definition patchEventHandler (self : ManagerObject) (eventHandler : EventHandler)
    : EventHandler :=
  let (handled, eventHandler) := _patchKeyEventHandler self eventHandler in
  if truthy handled then eventHandler
  else
    let (handled, eventHandler) := _patchResizeEventHandler self eventHandler in
    if truthy handled then eventHandler
    else snd (_patchFullscreenchangedEventHandler self eventHandler).

(** The three kinds of [eventHandler] the patches look for. *)
Definition key_kind (eventHandler : EventHandler) : bool :=
  strict_eq (target eventHandler) window
  && startsWith (eventTypeString eventHandler) "key".

Definition resize_kind (eventHandler : EventHandler) : bool :=
  strict_eq (target eventHandler) window
  && String.eqb (eventTypeString eventHandler) "resize".

Definition fullscreenchange_kind (eventHandler : EventHandler) : bool :=
  strict_eq (target eventHandler) document
  && endsWith (eventTypeString eventHandler) "fullscreenchange".

Section WithHost.

Context {E : Type} (host : Host E).

(** *** Public methods *)

(** [async callMain(args)] *)
Definition callMain (args : Value) : M E Value :=
  let* self := get_this in
  invoke host (_moduleInstance self) "callMain" [AVal args] >>
  ret VUndefined.

(** [async abort(what = 'Aborted by JS component.')] *)
Definition abort (what : Value) : M E Value :=
  let what :=
    if strict_eq what VUndefined then VStr "Aborted by JS component."
    else what in
  try_catch
    (let* self := get_this in
     invoke host (_moduleInstance self) "abort" [AVal what] >>
     ret VUndefined)
    (fun _ => ret VUndefined).

(** [async pauseMainLoop()] *)
Definition pauseMainLoop : M E Value :=
  let* self := get_this in
  invoke host (_moduleInstance self) "pauseMainLoop" [] >>
  ret VUndefined.

(** [async resumeMainLoop()] *)
Definition resumeMainLoop : M E Value :=
  let* self := get_this in
  invoke host (_moduleInstance self) "resumeMainLoop" [] >>
  ret VUndefined.

(** [async requestFullscreen()] *)
Definition requestFullscreen : M E Value :=
  let* self := get_this in
  invoke host (__canvasElement self) "requestFullscreen" [].

(** [async exitFullscreen()] *)
Definition exitFullscreen : M E Value :=
  let* self := get_this in
  invoke host (__canvasElement self) "exitFullscreen" [].

(** [new FocusEvent(type, {relatedTarget: relatedTarget})], the constructor
    of the browser.  The member [relatedTarget] is an [EventTarget] or
    [null]: [undefined] takes the default, [null]; a value that is
    neither [null] nor an [EventTarget] is a [TypeError].  The event is not
    dispatched yet, so it has no target. *)
Definition new_FocusEvent (type : string) (relatedTarget : Value) : M E Event :=
  match relatedTarget with
  | VUndefined | VNull =>
      ret {| evt_type := type;
             evt_target := VNull;
             evt_srcElement := VNull;
             evt_relatedTarget := VNull;
             evt_keyCode := VUndefined |}
  | _ =>
      let* isEventTarget := instanceof host relatedTarget "EventTarget" in
      if isEventTarget
      then ret {| evt_type := type;
                  evt_target := VNull;
                  evt_srcElement := VNull;
                  evt_relatedTarget := relatedTarget;
                  evt_keyCode := VUndefined |}
      else throw TypeError
  end.

(** [_handleResizeCanvas(resizeEntry)] *)
Definition _handleResizeCanvas (resizeEntry : Value) : M E Value :=
  let* relatedTarget := get_prop host resizeEntry "target" in
  let* event := new_FocusEvent "resize" relatedTarget in
  invoke host window "dispatchEvent" [AEvent event] >>
  ret VUndefined.

(** [onResizeCanvas(...args)] *)
Definition onResizeCanvas (args : list Value) : M E Value :=
  let* self := get_this in
  if truthy (prop (__options self) "resizeCanvasOnElementSizing")
  then _handleResizeCanvas (nth 0 args VUndefined) >> ret VUndefined
  else ret VUndefined.

(** *** Fixing the canvas size and the viewport *)

(** [_fixCanvasSizing()] *)
Definition _fixCanvasSizing : M E Value :=
  let* self := get_this in
  let* rect := invoke host (__canvasElement self) "getBoundingClientRect" [] in
  let* dpr := get_prop host window "devicePixelRatio" in
  let* self := get_this in
  let* width := get_prop host rect "width" in
  assign host (__canvasElement self) "width"
    (AVal (host_times host width dpr)) >>
  let* self := get_this in
  let* height := get_prop host rect "height" in
  assign host (__canvasElement self) "height"
    (AVal (host_times host height dpr)) >>
  ret VUndefined.

(** [_fixCanvasViewport()] *)
Definition _fixCanvasViewport : M E Value :=
  let* self := get_this in
  let* gl := invoke host (__canvasElement self) "getContext" [AVal (VStr "webgl")] in
  if truthy gl
  then
    let* self := get_this in
    let* width := get_prop host (__canvasElement self) "width" in
    let* height := get_prop host (__canvasElement self) "height" in
    invoke host gl "viewport"
      [AVal (VNum 0); AVal (VNum 0); AVal width; AVal height] >>
    ret VUndefined
  else ret VUndefined.

(** *** Running an event handler function *)

(** What the resize wrapper does after its call, or not, of the
    predefined handler. *)
Definition resizeFixups (options : Object) (canvasElement : Value) : M E Value :=
  let* enteredFullscreen :=
    if truthy (prop options "resizeCanvasOnFullscreenChange")
    then
      let* fullscreenElement := get_prop host document "fullscreenElement" in
      ret (strict_eq fullscreenElement canvasElement)
    else ret false in
  if enteredFullscreen
  then _fixCanvasSizing >> _fixCanvasViewport >> ret VUndefined
  else if truthy (prop options "resizeCanvasOnElementSizing")
  then _fixCanvasViewport >> ret VUndefined
  else ret VUndefined.

(** What the fullscreenchange wrapper does after its call of the
    predefined handler. *)
Definition fullscreenchangeFixups (canvasElement : Value) (evt : Event) : M E Value :=
  let* fullscreenElement := get_prop host document "fullscreenElement" in
  let canvasWasFullscreen :=
    negb (truthy fullscreenElement)
    && (strict_eq (evt_target evt) canvasElement
        || strict_eq (evt_srcElement evt) canvasElement) in
  if canvasWasFullscreen
  then _fixCanvasSizing >> _fixCanvasViewport >> ret VUndefined
  else ret VUndefined.

(** [handlerFunc(evt)] *)
Fixpoint run_handler (handlerFunc : HandlerFunc) (evt : Event) : M E Value :=
  match handlerFunc with
  | Predefined f => apply host f VUndefined [AEvent evt]
  | KeyWrapper predefinedHandlerFunc =>
      if strict_ne (evt_keyCode evt) (VNum 9)
      then run_handler predefinedHandlerFunc evt >> ret VUndefined
      else ret VUndefined
  | ResizeWrapper options canvasElement predefinedHandlerFunc =>
      (if truthy (prop options "resizeCanvasOnElementSizing")
       then
         if strict_eq (evt_relatedTarget evt) canvasElement
         then run_handler predefinedHandlerFunc evt
         else ret VUndefined
       else run_handler predefinedHandlerFunc evt) >>
      resizeFixups options canvasElement
  | FullscreenchangeWrapper canvasElement predefinedHandlerFunc =>
      run_handler predefinedHandlerFunc evt >>
      fullscreenchangeFixups canvasElement evt
  end.

(** *** The closures installed on the wrapped module *)

(** The function [_patchEventHandlers] puts in place of
    [JSEvents.registerOrRemoveHandler]. *)
Definition patchedRegisterOrRemoveHandler
    (predefinedFunction : Value) (eventHandler : EventHandler) : M E Value :=
  let* self := get_this in
  let eventHandler := patchEventHandler self eventHandler in
  apply host predefinedFunction VUndefined [AHandler eventHandler] >>
  ret VUndefined.

(** The function [_patchGlViewport] puts in place of
    [GL.createContext]. *)
Definition patchedCreateContext
    (GL predefinedCreateContext : Value) (args : list Arg) : M E Value :=
  let* handle := apply host predefinedCreateContext GL args in
  if negb (truthy handle) then ret handle
  else
    let* context := invoke host GL "getContext" [AVal handle] in
    let* gl := get_prop host context "GLctx" in
    if negb (truthy gl) then ret handle
    else
      let* predefinedViewport := get_prop host gl "viewport" in
      assign host gl "viewport"
        (AClosure (PatchedViewport gl predefinedViewport)) >>
      ret handle.

(** The handler [_attachFocusInvokers] registers. *)
Definition focusInvoker (componentElement : Value) : M E Value :=
  invoke host componentElement "focus" [] >> ret VUndefined.

(** The function [_getAbortHandler()] returns, called by the wrapped
    module with itself as [this]. *)
Definition abortHandler
    (options : Object) (initialModule : Value) (module what : Value) : M E Value :=
  (if truthy (prop options "disposeCanvasOnAbort")
   then Manager.__disposeGlContexts host module
   else ret VUndefined) >>
  let* onAbort := get_prop host initialModule "onAbort" in
  let* isFunction := instanceof host onAbort "Function" in
  if isFunction
  then invoke host initialModule "onAbort" [AVal what] >> ret VUndefined
  else ret VUndefined.

(** [_getAbortHandler()] *)
Definition _getAbortHandler : M E Closure :=
  let* self := get_this in
  ret (AbortHandler (__options self) (__initialModule self)).

(** *** Scope patching *)

(** [_patchCanvasQueries()] *)
Definition _patchCanvasQueries : M E Value :=
  let* self := get_this in
  if negb (truthy (prop (__options self) "redirectCanvasRequests"))
  then ret VUndefined
  else
    let* isElement := instanceof host (__canvasElement self) "HTMLElement" in
    if isElement
    then
      let* targets := get_prop host (_moduleInstance self) "specialHTMLTargets" in
      assign host targets "#canvas" (AVal (__canvasElement self)) >>
      ret VUndefined
    else ret VUndefined.

(** [_attachFocusInvokers()] *)
Definition _attachFocusInvokers : M E Value :=
  let* self := get_this in
  if negb (truthy (prop (__options self) "captureFocusOnComponent"))
  then ret VUndefined
  else
    let handler := FocusInvoker (__componentElement self) in
    let* isElement := instanceof host (__canvasElement self) "HTMLElement" in
    if isElement
    then
      invoke host (__canvasElement self) "addEventListener"
        [AVal (VStr "mousedown"); AClosure handler; AVal (VBool true)] >>
      invoke host (__canvasElement self) "addEventListener"
        [AVal (VStr "touchstart"); AClosure handler; AVal (VBool true)] >>
      ret VUndefined
    else ret VUndefined.

(** [_patchGlViewport()] *)
Definition _patchGlViewport : M E Value :=
  let* self := get_this in
  if negb (truthy (prop (__options self) "adjustViewportByDevicePixelRatio"))
  then ret VUndefined
  else
    let* GL := get_prop host (_moduleInstance self) "GL" in
    if negb (truthy GL) then ret VUndefined
    else
      let* predefinedCreateContext := get_prop host GL "createContext" in
      assign host GL "createContext"
        (AClosure (PatchedCreateContext GL predefinedCreateContext)) >>
      ret VUndefined.

(** [_patchEventHandlers()] *)
Definition _patchEventHandlers : M E Value :=
  let* self := get_this in
  let* JSEvents := get_prop host (_moduleInstance self) "JSEvents" in
  let* predefinedFunction := get_prop host JSEvents "registerOrRemoveHandler" in
  assign host JSEvents "registerOrRemoveHandler"
    (AClosure (PatchedRegisterOrRemoveHandler predefinedFunction)) >>
  ret VUndefined.

(** [_patchModule()] *)
Definition _patchModule : M E Value :=
  _patchCanvasQueries >>
  _attachFocusInvokers >>
  _patchGlViewport >>
  _patchEventHandlers.

(** *** Initialization *)

(** The object literal [_initializeModule] passes to the factory. *)
Definition moduleConfig : M E ModuleConfig :=
  let* locateFile := Manager.__getLocateFile in
  let* self := get_this in
  let* onAbort := _getAbortHandler in
  let* print := Manager.__getPrintHandler host in
  let* printErr := Manager.__getPrintErrHandler host in
  ret {| cfg_locateFile := locateFile;
         cfg_initialModule := __initialModule self;
         cfg_noInitialRun := VBool true;
         cfg_keyboardListeningElement :=
           (if truthy (prop (__options self) "captureFocusOnComponent")
            then __componentElement self else VUndefined);
         cfg_canvas :=
           (if truthy (prop (__options self) "redirectCanvasRequests")
            then __canvasElement self else VUndefined);
         cfg_onAbort := onAbort;
         cfg_print := print;
         cfg_printErr := printErr |}.

(** [async _initializeModule()] *)
Definition _initializeModule : M E Value :=
  let* self := get_this in
  let* config := moduleConfig in
  let* instance := apply host (_moduleFactory self) (VRef Self) [AConfig config] in
  write_moduleInstance instance >>
  _patchModule.

(** [static async initialize(moduleFactory, componentElement,
    canvasElement, consoleElement, userOptions)], run from a state whose
    [this] is of no account: the method makes its own. *)
Definition initialize
    (moduleFactory componentElement canvasElement consoleElement : Value)
    (userOptions : Object) : M E ManagerObject :=
  set_this (constructor moduleFactory componentElement canvasElement
              consoleElement userOptions) >>
  _initializeModule >>
  get_this.

(** *** The operations of the adapter

    Everything of the adapter that runs once the manager object is
    constructed: the rest of [initialize], the public methods, and the
    closures the adapter installed, as the host calls them. *)
Inductive Operation :=
  | op_initializeModule
  | op_callMain (args : Value)
  | op_abort (what : Value)
  | op_pauseMainLoop
  | op_resumeMainLoop
  | op_requestFullscreen
  | op_exitFullscreen
  | op_onResizeCanvas (args : list Value)
  | op_handlerFunc (handlerFunc : HandlerFunc) (evt : Event)
  | op_abortHandler (options : Object) (initialModule module what : Value)
  | op_registerOrRemoveHandler (predefinedFunction : Value)
      (eventHandler : EventHandler)
  | op_createContext (GL predefinedCreateContext : Value) (args : list Arg)
  | op_focusInvoker (componentElement : Value).

Definition run (op : Operation) : M E Value :=
  match op with
  | op_initializeModule => _initializeModule
  | op_callMain args => callMain args
  | op_abort what => abort what
  | op_pauseMainLoop => pauseMainLoop
  | op_resumeMainLoop => resumeMainLoop
  | op_requestFullscreen => requestFullscreen
  | op_exitFullscreen => exitFullscreen
  | op_onResizeCanvas args => onResizeCanvas args
  | op_handlerFunc handlerFunc evt => run_handler handlerFunc evt
  | op_abortHandler options initialModule module what =>
      abortHandler options initialModule module what
  | op_registerOrRemoveHandler predefinedFunction eventHandler =>
      patchedRegisterOrRemoveHandler predefinedFunction eventHandler
  | op_createContext GL predefinedCreateContext args =>
      patchedCreateContext GL predefinedCreateContext args
  | op_focusInvoker componentElement => focusInvoker componentElement
  end.

(** *** The exposed operations as the documentation describes them *)

(** The public instance methods, called with a list of arguments. *)
Inductive Exposed :=
  | ex_callMain
  | ex_abort
  | ex_pauseMainLoop
  | ex_resumeMainLoop
  | ex_requestFullscreen
  | ex_exitFullscreen
  | ex_onResizeCanvas.

Definition call_exposed (op : Exposed) (args : list Value) : M E Value :=
  match op with
  | ex_callMain => callMain (nth 0 args VUndefined)
  | ex_abort => abort (nth 0 args VUndefined)
  | ex_pauseMainLoop => pauseMainLoop
  | ex_resumeMainLoop => resumeMainLoop
  | ex_requestFullscreen => requestFullscreen
  | ex_exitFullscreen => exitFullscreen
  | ex_onResizeCanvas => onResizeCanvas args
  end.

Definition entry_point (op : Exposed) : string :=
  match op with
  | ex_callMain => "callMain"
  | ex_abort => "abort"
  | ex_pauseMainLoop => "pauseMainLoop"
  | ex_resumeMainLoop => "resumeMainLoop"
  | ex_requestFullscreen => "requestFullscreen"
  | ex_exitFullscreen => "exitFullscreen"
  | ex_onResizeCanvas => "onResizeCanvas"
  end.

(** A direct forward to an entry point of the wrapped module:
    [this._moduleInstance.entry(...args)]. *)
Definition forward (entry : string) (args : list Value) : M E Value :=
  let* self := get_this in
  invoke host (_moduleInstance self) entry (map AVal args).

End WithHost.

End ModuleManager.

(** ** What a computation does to the host and to the options *)

(** The calls a computation makes to the host from a state. *)
Definition calls_made {E A} (m : M E A) (s : State E) : list Call :=
  drop (length (trace s)) (trace (snd (m s))).

(** A computation that leaves [this.__options] as it found it. *)
Definition keeps_options {E A} (m : M E A) : Prop :=
  forall s, __options (this (snd (m s))) = __options (this s).

(** A receiver on which a method can be looked up. *)
Definition is_object (v : Value) : bool :=
  match v with
  | VUndefined | VNull | VRef EmptyObject => false
  | _ => true
  end.

(** ** A small host to run the model on

    The module is [Obj 0]; its [GL] is [Obj 1], with a contexts table
    [Obj 2] of three entries: a stale [null], a context [Obj 3] whose
    extension [Obj 5] throws from [loseContext], and a context [Obj 6]
    without the extension.  The component, the canvas and the console are
    [Obj 10], [Obj 11] and [Obj 12], the module factory is [Obj 20] and
    returns the module.  The host has no state of its own: what the adapter
    did to it is read off the trace. *)

Module Sample.

Definition module : Value := VRef (Obj 0).
Definition componentElement : Value := VRef (Obj 10).
Definition canvasElement : Value := VRef (Obj 11).
Definition consoleElement : Value := VRef (Obj 12).
Definition moduleFactory : Value := VRef (Obj 20).

Definition read (_ : unit) (o : Value) (p : string) : Value :=
  match o with
  | VRef (Obj 0) =>
      if String.eqb p "GL" then VRef (Obj 1)
      else if String.eqb p "JSEvents" then VRef (Obj 7)
      else if String.eqb p "specialHTMLTargets" then VRef (Obj 8)
      else VUndefined
  | VRef (Obj 1) =>
      if String.eqb p "contexts" then VRef (Obj 2)
      else if String.eqb p "createContext" then VRef (Obj 21)
      else VUndefined
  | VRef (Obj 2) =>
      if String.eqb p "1" then VNull
      else if String.eqb p "2" then VRef (Obj 3)
      else if String.eqb p "3" then VRef (Obj 6)
      else VUndefined
  | VRef (Obj 3) => if String.eqb p "GLctx" then VRef (Obj 4) else VUndefined
  | VRef (Obj 6) => if String.eqb p "GLctx" then VRef (Obj 9) else VUndefined
  | VRef (Obj 7) =>
      if String.eqb p "registerOrRemoveHandler" then VRef (Obj 22)
      else VUndefined
  | _ => VUndefined
  end.

Definition keys (_ : unit) (o : Value) : list string :=
  match o with
  | VRef (Obj 2) => ["1"; "2"; "3"]
  | _ => []
  end.

Definition instance_of (_ : unit) (o : Value) (C : string) : bool :=
  match o with
  | VRef (Obj 10) | VRef (Obj 11) | VRef (Obj 12) => String.eqb C "HTMLElement"
  | _ => false
  end.

Definition call (c : Call) (e : unit) : Result Value * unit :=
  match c with
  | Invoke (VRef (Obj 4)) _ _ => (Ok (VRef (Obj 5)), e)
  | Invoke (VRef (Obj 5)) _ _ => (Throw (Error "context already lost"), e)
  | Invoke (VRef (Obj 0)) method _ =>
      if String.eqb method "abort"
      then (Throw (Error "RuntimeError: abort"), e)
      else (Ok VUndefined, e)
  | Apply (VRef (Obj 20)) _ _ => (Ok module, e)
  | _ => (Ok VUndefined, e)
  end.

Definition host : Host unit :=
  {| host_read := read;
     host_keys := keys;
     host_instanceof := instance_of;
     host_times := fun a _ => a;
     host_call := call |}.

(** The manager [initialize] builds from no options at all, once the
    module is in place. *)
Definition manager : ManagerObject :=
  ModuleManager.set_moduleInstance module
    (ModuleManager.constructor moduleFactory componentElement canvasElement
       consoleElement ∅).

Definition state : State unit :=
  {| this := manager; env := tt; trace := [] |}.

(** Handlers as the wrapped module registers them, and events. *)
Definition keydownHandler : EventHandler :=
  {| target := window;
     eventTypeString := "keydown";
     handlerFunc := Predefined (VRef (Obj 30));
     otherProps := {[ "useCapture" := VBool true ]} |}.

Definition resizeHandler : EventHandler :=
  {| target := window;
     eventTypeString := "resize";
     handlerFunc := Predefined (VRef (Obj 31));
     otherProps := {[ "useCapture" := VBool true ]} |}.

Definition mousedownHandler : EventHandler :=
  {| target := canvasElement;
     eventTypeString := "mousedown";
     handlerFunc := Predefined (VRef (Obj 32));
     otherProps := {[ "useCapture" := VBool true ]} |}.

Definition keyEvent (keyCode : Q) : Event :=
  {| evt_type := "keydown";
     evt_target := componentElement;
     evt_srcElement := componentElement;
     evt_relatedTarget := VUndefined;
     evt_keyCode := VNum keyCode |}.

(** A resize of the whole window, and the event [_handleResizeCanvas]
    makes for a resize of the canvas. *)
Definition windowResize : Event :=
  {| evt_type := "resize";
     evt_target := window;
     evt_srcElement := window;
     evt_relatedTarget := VUndefined;
     evt_keyCode := VUndefined |}.

Definition canvasResize : Event :=
  {| evt_type := "resize";
     evt_target := VNull;
     evt_srcElement := VNull;
     evt_relatedTarget := canvasElement;
     evt_keyCode := VUndefined |}.

End Sample.



(** ** The documented reading of the exposed operations *)

(** A computation that only adds to the record of calls. *)
Definition grows_trace {E A} (m : M E A) : Prop :=
  forall s, exists calls, trace (snd (m s)) = (trace s ++ calls)%list.

(** The value [abort] passes on: its argument, or the default message. *)
Definition abort_message (what : Value) : Value :=
  if strict_eq what VUndefined then VStr "Aborted by JS component." else what.

(** The event [_handleResizeCanvas] dispatches for a target. *)
Definition resize_event (relatedTarget : Value) : Event :=
  {| evt_type := "resize";
     evt_target := VNull;
     evt_srcElement := VNull;
     evt_relatedTarget := relatedTarget;
     evt_keyCode := VUndefined |}.

(** "Each exposed operation is a direct forward to the wrapped module's
    corresponding entry point, for every argument list": the operation
    makes the calls the forward makes. *)
Definition direct_forward {E} (host : Host E) (op : ModuleManager.Exposed) : Prop :=
  forall (args : list Value) (s : State E),
    calls_made (ModuleManager.call_exposed host op args) s
    = calls_made (ModuleManager.forward host (ModuleManager.entry_point op) args) s.

(** ** [manager.js]: the function [__getLocateFile()] returns *)

Module LocateFile.

Section WithURL.

Context {E : Type}.

(** [new URL(url)], the constructor of the host: it throws when [url] is
    not an absolute URL. *)
Variable new_URL : Value -> M E Value.

(** [a + b] on two primitives. *)
Variable plus : Value -> Value -> Value.

(** [__isAbsoluteUrl(url)] *)
Definition __isAbsoluteUrl (url : Value) : M E bool :=
  try_catch (new_URL url >> ret true) (fun _ => ret false).

(** The closure [LocateFile wasmPath], called as
    [locateFile(path, scriptDirectory)]. *)
Definition locateFile (wasmPath : Value) (path scriptDirectory : Value) : M E Value :=
  if negb (truthy wasmPath) then ret (plus scriptDirectory path)
  else
    let* absolute := __isAbsoluteUrl wasmPath in
    if negb absolute then ret (plus scriptDirectory wasmPath)
    else ret wasmPath.

End WithURL.

End LocateFile.

(** ** [manager-module.js]: the viewport function of a created context *)

Module PatchedContext.

Section WithDisplay.

Context {E : Type} (host : Host E).

(** [window.devicePixelRatio], a number. *)
Variable devicePixelRatio : E -> Q.

(** [gl.canvas], with its integer [width] and [height]. *)
Variable canvas_of : E -> Value -> Viewport.Canvas.

(** The product of two numbers, however it is rounded. *)
Variable times : Q -> Q -> Q.

Definition number (q : Q) : Arg := AVal (VNum q).

(** The closure [PatchedViewport gl predefinedViewport] that
    [patchedCreateContext] assigns to [gl.viewport], called as
    [gl.viewport(x0, y0, w0, h0)]: the device pixel ratio and the canvas
    are read when it is called, and the function that was there before is
    called with [gl] as [this]. *)
Definition patchedViewport (gl predefinedViewport : Value) (x0 y0 w0 h0 : Q)
    : M E Value :=
  fun s =>
    Viewport.patchedViewport
      (fun x0 y0 w0 h0 =>
         apply host predefinedViewport gl
           [number x0; number y0; number w0; number h0]
         >> ret VUndefined)
      times (devicePixelRatio (env s)) (canvas_of (env s) gl)
      x0 y0 w0 h0 s.

(** A closure of the adapter called as a viewport function. *)
Definition call_viewport (viewport : Closure) (x0 y0 w0 h0 : Q)
    : option (M E Value) :=
  match viewport with
  | PatchedViewport gl predefinedViewport =>
      Some (patchedViewport gl predefinedViewport x0 y0 w0 h0)
  | _ => None
  end.

End WithDisplay.

End PatchedContext.

(** ** Forwarding and framing *)

(** The handler a wrapper hands an event on to, when it does. *)
Definition forwards_to (handlerFunc : HandlerFunc) (evt : Event) : option HandlerFunc :=
  match handlerFunc with
  | Predefined _ => None
  | KeyWrapper predefinedHandlerFunc =>
      if strict_ne (evt_keyCode evt) (VNum 9)
      then Some predefinedHandlerFunc else None
  | ResizeWrapper options canvasElement predefinedHandlerFunc =>
      if truthy (prop options "resizeCanvasOnElementSizing")
      then
        if strict_eq (evt_relatedTarget evt) canvasElement
        then Some predefinedHandlerFunc else None
      else Some predefinedHandlerFunc
  | FullscreenchangeWrapper _ predefinedHandlerFunc =>
      Some predefinedHandlerFunc
  end.

(** A call of a function value, as against a method call or an
    assignment: the only way the adapter runs a handler function of the
    module. *)
Definition is_apply (c : Call) : bool :=
  match c with
  | Apply _ _ _ => true
  | _ => false
  end.

(** A computation that only adds to the record of calls, and no call of a
    function value. *)
Definition applies_nothing {E A} (m : M E A) : Prop :=
  forall s, exists calls,
    trace (snd (m s)) = (trace s ++ calls)%list
    /\ forallb (fun c => negb (is_apply c)) calls = true.

(** A computation that leaves the manager object as it found it. *)
Definition keeps_this {E A} (m : M E A) : Prop :=
  forall s, this (snd (m s)) = this s.

(** A computation that makes no call to the host and changes nothing. *)
Definition silent {E A} (m : M E A) (s : State E) : Prop :=
  snd (m s) = s.

(** ** The sample host with a resize entry and a user callback

    As [Sample.host], with a [ResizeObserverEntry] [Obj 40] whose [target]
    is the canvas element, an initial module [Obj 41] whose [onAbort] is
    the function [Obj 42], and [new URL] accepting nothing but
    ["https://cdn.example/app.wasm"]. *)

Module Demo.

Definition resizeEntry : Value := VRef (Obj 40).
Definition initialModule : Value := VRef (Obj 41).

Definition read (e : unit) (o : Value) (p : string) : Value :=
  match o with
  | VRef (Obj 40) =>
      if String.eqb p "target" then Sample.canvasElement else VUndefined
  | VRef (Obj 41) =>
      if String.eqb p "onAbort" then VRef (Obj 42) else VUndefined
  | _ => Sample.read e o p
  end.

Definition instance_of (e : unit) (o : Value) (C : string) : bool :=
  match o with
  | VRef (Obj 42) => String.eqb C "Function"
  | VRef (Obj 10) | VRef (Obj 11) | VRef (Obj 12) =>
      String.eqb C "HTMLElement" || String.eqb C "EventTarget"
  | _ => Sample.instance_of e o C
  end.

(** The handler function [Obj 34] throws; the canvas measures as the
    rectangle [Obj 43]. *)
Definition call (c : Call) (e : unit) : Result Value * unit :=
  match c with
  | Apply (VRef (Obj 34)) _ _ => (Throw (Error "handler failed"), e)
  | Invoke (VRef (Obj 11)) method _ =>
      if String.eqb method "getBoundingClientRect"
      then (Ok (VRef (Obj 43)), e)
      else Sample.call c e
  | _ => Sample.call c e
  end.

Definition host : Host unit :=
  {| host_read := read;
     host_keys := Sample.keys;
     host_instanceof := instance_of;
     host_times := fun a _ => a;
     host_call := call |}.

Definition new_URL (url : Value) : M unit Value :=
  match url with
  | VStr "https://cdn.example/app.wasm" => ret (VRef (Obj 50))
  | _ => throw TypeError
  end.

Definition plus (a b : Value) : Value :=
  match a, b with
  | VStr x, VStr y => VStr (x +:+ y)
  | _, _ => VUndefined
  end.

Definition fullscreenchangeHandler : EventHandler :=
  {| target := document;
     eventTypeString := "webkitfullscreenchange";
     handlerFunc := Predefined (VRef (Obj 33));
     otherProps := {[ "useCapture" := VBool false ]} |}.

End Demo.

(** ** A host that creates rendering contexts

    As the demo host, with a [createContext] ([Obj 21]) that returns the
    handle 1, a [GL.getContext] that returns the context [Obj 60] whose
    [GLctx] is [Obj 61], with the viewport function [Obj 62]; the device
    pixel ratio is 2 and the backing store of the canvas is 100 by 100. *)

Module Display.

Definition GL : Value := VRef (Obj 1).
Definition gl : Value := VRef (Obj 61).

Definition read (e : unit) (o : Value) (p : string) : Value :=
  match o with
  | VRef (Obj 60) => if String.eqb p "GLctx" then gl else VUndefined
  | VRef (Obj 61) =>
      if String.eqb p "viewport" then VRef (Obj 62) else VUndefined
  | _ => Demo.read e o p
  end.

Definition call (c : Call) (e : unit) : Result Value * unit :=
  match c with
  | Apply (VRef (Obj 21)) _ _ => (Ok (VNum 1), e)
  | Invoke (VRef (Obj 1)) method _ =>
      if String.eqb method "getContext"
      then (Ok (VRef (Obj 60)), e)
      else Demo.call c e
  | _ => Demo.call c e
  end.

Definition host : Host unit :=
  {| host_read := read;
     host_keys := Sample.keys;
     host_instanceof := Demo.instance_of;
     host_times := fun a _ => a;
     host_call := call |}.

Definition devicePixelRatio (_ : unit) : Q := 2.

Definition canvas_of (_ : unit) (_ : Value) : Viewport.Canvas :=
  {| Viewport.width := 100; Viewport.height := 100 |}.

End Display.
(** * Properties *)

(** ** Properties of object spread *)

Lemma spread_into_union (src acc : Object) : spread_into src acc = src ∪ acc.
Proof.
  unfold spread_into.
  induction src as [|k v src Hk Hfirst IH] using map_first_key_ind.
  - rewrite map_fold_empty. by rewrite (left_id_L ∅ (∪)).
  - rewrite map_fold_insert_first_key by done.
    rewrite IH. by rewrite insert_union_l.
Qed.

Lemma spread2_lookup (a b : Object) (k : string) :
  spread2 a b !! k = match b !! k with Some v => Some v | None => a !! k end.
Proof.
  unfold spread2. rewrite !spread_into_union, (right_id_L ∅ (∪)).
  rewrite lookup_union. destruct (b !! k), (a !! k); done.
Qed.


Lemma getDefaultOptionsForVersion_const (userOptions : Object) :
  Options.__getDefaultOptionsForVersion userOptions = Options.defaultOptions.
Proof.
  unfold Options.__getDefaultOptionsForVersion.
  by destruct (negb _).
Qed.


(** ** The viewport rule *)

(** The size rule of the patched viewport function.  It passes [x0] and
    [y0] on as they are.  It replaces the requested size by the backing-store size
    exactly when the device pixel ratio is not 1 and each scaled dimension
    is the backing-store dimension or one more; in every other case, also
    when a scaled dimension is one less than the backing store, the
    requested size is passed on unchanged. *)
Lemma viewport_size_rule
    {R : Type} (predefinedViewport : Q -> Q -> Q -> Q -> R) (times : Q -> Q -> Q)
    (dpr : Q) (canvas : Viewport.Canvas) (x0 y0 w0 h0 : Q) :
  let w := Viewport.Math_floor (times w0 dpr) in
  let h := Viewport.Math_floor (times h0 dpr) in
  let cw := Viewport.width canvas in
  let ch := Viewport.height canvas in
  (~ dpr == 1 /\ cw <= w <= cw + 1 /\ ch <= h <= ch + 1 ->
     Viewport.patchedViewport predefinedViewport times dpr canvas x0 y0 w0 h0
     = predefinedViewport x0 y0 (inject_Z cw) (inject_Z ch))
  /\
  (~ (~ dpr == 1 /\ cw <= w <= cw + 1 /\ ch <= h <= ch + 1) ->
     Viewport.patchedViewport predefinedViewport times dpr canvas x0 y0 w0 h0
     = predefinedViewport x0 y0 w0 h0).
Proof.
  intros w h cw ch. unfold Viewport.patchedViewport.
  fold w h cw ch.
  destruct (Qeq_bool dpr 1) eqn:Hd; simpl.
  - apply Qeq_bool_iff in Hd. split; [intros [Hn _]; contradiction | done].
  - assert (Hn : ~ dpr == 1).
    { intros Heq. apply Qeq_bool_iff in Heq. congruence. }
    destruct (Z.leb_spec cw w), (Z.leb_spec w (1 + cw)),
             (Z.leb_spec ch h), (Z.leb_spec h (1 + ch)); simpl;
      (split; [ intros (_ & ? & ?); first [done | lia]
              | intros Hno; first [done | exfalso; apply Hno; repeat split; first [done | lia]] ]).
Qed.

(** The snapping case of the rule at a device pixel ratio of 2: a
    request of 50 by 50 scales to the 100 by 100 backing store. *)
Lemma viewport_size_rule_at_ratio_two :
  Viewport.patchedViewport (fun x0 y0 w0 h0 => (x0, y0, w0, h0)) Qmult
    2 {| Viewport.width := 100; Viewport.height := 100 |} 0 0 50 50
  = (0, 0, inject_Z 100, inject_Z 100)%Q.
Proof.
  apply (proj1 (viewport_size_rule
                  (fun x0 y0 w0 h0 => (x0, y0, w0, h0)) Qmult
                  2 {| Viewport.width := 100; Viewport.height := 100 |} 0 0 50 50)).
  vm_compute. repeat split; congruence.
Defined.

(** C2 as documented fails: at a device pixel ratio of 2 and a backing
    store of 101 by 101, a request of 50 by 50 scales to 100 by 100, which
    is within one pixel of the backing store, and is passed on unchanged
    instead of being replaced by 101 by 101. *)
Lemma patchedViewport_not_documented_viewport :
  let canvas := {| Viewport.width := 101; Viewport.height := 101 |} in
  let call := fun x0 y0 w0 h0 : Q => (x0, y0, w0, h0) in
  Viewport.within_one_pixel (Viewport.Math_floor (50 * 2)) 101 = true
  /\ Viewport.patchedViewport call Qmult 2 canvas 0 0 50 50 = (0, 0, 50, 50)%Q
  /\ Viewport.documented_viewport call Qmult 2 canvas 0 0 50 50
     = (0, 0, inject_Z 101, inject_Z 101)%Q
  /\ Viewport.patchedViewport call Qmult 2 canvas 0 0 50 50
     <> Viewport.documented_viewport call Qmult 2 canvas 0 0 50 50.
Proof.
  vm_compute. repeat split; congruence.
Qed.

(** ** The abstract-method guards of the base class *)

(** C3 as documented fails: the methods of [Manager] that raise the
    not-implemented error are ten, not three. *)
Lemma Manager_guards_not_three :
  length (filter (fun m => Manager.raises_unimplemented m = true) Manager.methods) <> 3%nat.
Proof. vm_compute. lia. Qed.

(** C3, amended. Exactly ten methods of the base class raise the
    not-implemented error: the eight public operations, [_initializeModule]
    and [_patchModule].  Called without an override, each of the six plain
    ones throws the error, and each of the four [async] ones returns a
    promise rejected with it; every other method has an implementation. *)
Theorem Manager_guards_are_ten :
  filter (fun m => Manager.raises_unimplemented m = true) Manager.methods
  = [ Manager.m_initialize; Manager.m_callMain; Manager.m_abort;
      Manager.m_pauseMainLoop; Manager.m_resumeMainLoop;
      Manager.m_requestFullscreen; Manager.m_exitFullscreen;
      Manager.m_onResizeCanvas; Manager.m__initializeModule;
      Manager.m__patchModule ]
  /\ (forall m, Manager.raises_unimplemented m = true ->
        exists message,
          Manager.guard m = Some message
          /\ Manager.call_guard m
             = Some (if Manager.is_async m
                     then Manager.Rejects (Error message)
                     else Manager.Throws (Error message)))
  /\ (forall m, (exists e, Manager.call_guard m = Some (Manager.Rejects e))
        <-> In m [ Manager.m_initialize; Manager.m_requestFullscreen;
                   Manager.m_exitFullscreen; Manager.m__initializeModule ]).
Proof.
  split; [by vm_compute|]. split.
  - intros m Hm. unfold Manager.raises_unimplemented, Manager.call_guard in *.
    destruct (Manager.guard m) as [message|]; [|done]. by exists message.
  - intros m. split.
    + intros [e He]. destruct m; vm_compute in He; try done; simpl; tauto.
    + intros Hm. destruct m; simpl in Hm;
        try (exfalso; intuition congruence); eexists; by vm_compute.
Qed.

(** The base [abort], a plain method, throws its error. *)
Lemma Manager_guards_are_ten_witness :
  exists message,
    Manager.guard Manager.m_abort = Some message
    /\ Manager.call_guard Manager.m_abort
       = Some (Manager.Throws (Error message)).
Proof.
  apply (proj1 (proj2 Manager_guards_are_ten) Manager.m_abort).
  reflexivity.
Defined.

(** ** Computations *)

Lemma forEach_total {E A} (l : list A) (f : A -> M E Value) :
  (forall x s, fst (f x s) = Ok VUndefined) ->
  forall s, forEach l f s = (Ok VUndefined, fold_left (fun s x => snd (f x s)) l s).
Proof.
  intros Hf. induction l as [|x l IH]; intros s; simpl; [done|].
  unfold bind. specialize (Hf x s).
  destruct (f x s) as [[v|e] s']; simpl in *; [apply IH | discriminate].
Qed.

(** ** Abort *)

(** C5. [ModuleManager.abort] ends normally, with [undefined], for every
    argument, every host and every state: also when the module's [abort]
    throws and when there is no module instance. *)
Theorem abort_never_throws {E} (host : Host E) (what : Value) (s : State E) :
  fst (ModuleManager.abort host what s) = Ok VUndefined.
Proof.
  unfold ModuleManager.abort, try_catch, bind, get_this.
  destruct (invoke host _ _ _ s) as [[v|e] s']; reflexivity.
Qed.

Lemma disposeContext_never_throws {E} (host : Host E) (module : Value)
    (key : string) (s : State E) :
  fst (Manager.disposeContext host module key s) = Ok VUndefined.
Proof.
  unfold Manager.disposeContext, try_catch.
  match goal with |- context [match ?body s with _ => _ end] =>
    set (b := body) end.
  assert (Hb : forall v s', b s = (Ok v, s') -> v = VUndefined).
  { unfold b, bind, ret. intros v s'.
    repeat match goal with
      | |- context [match ?m ?st with _ => _ end] =>
          destruct (m st) as [[?|?] ?]
      end; congruence. }
  destruct (b s) as [[v|e] s'] eqn:Hbs; simpl; [|done].
  by rewrite (Hb v s').
Qed.

(** C6. The function run for each key never throws, whatever fails inside
    it.  When [module.GL] is falsy, [__disposeGlContexts] returns at once;
    otherwise, with a contexts table to take the keys of, it ends normally
    and has run that function for every key of the table, in order, each
    from the state the one before left, whether or not it failed. *)
Theorem disposeGlContexts_visits_every_context {E} (host : Host E)
    (module GL : Value) (s : State E) :
  get_prop host module "GL" s = (Ok GL, s) ->
  (forall key s', fst (Manager.disposeContext host module key s') = Ok VUndefined)
  /\ (truthy GL = false ->
        Manager.__disposeGlContexts host module s = (Ok VUndefined, s))
  /\ (forall contexts keys,
        truthy GL = true ->
        get_prop host GL "contexts" s = (Ok contexts, s) ->
        object_keys host contexts s = (Ok keys, s) ->
        Manager.__disposeGlContexts host module s
        = (Ok VUndefined,
           fold_left (fun s' key => snd (Manager.disposeContext host module key s'))
             keys s)).
Proof.
  intros HGL. split; [|split].
  - intros key s'. apply disposeContext_never_throws.
  - intros Hfalsy. unfold Manager.__disposeGlContexts, bind.
    rewrite HGL, Hfalsy. reflexivity.
  - intros contexts keys Htruthy Hcontexts Hkeys.
    unfold Manager.__disposeGlContexts, bind.
    rewrite HGL, Htruthy. simpl. rewrite HGL, Hcontexts, Hkeys.
    apply forEach_total. intros key s'. apply disposeContext_never_throws.
Qed.

(** On the sample host: the stale entry fails at once, the second context
    fails in [loseContext], the third is released and deleted. *)
Lemma disposeGlContexts_visits_every_context_witness :
  Manager.__disposeGlContexts Sample.host Sample.module Sample.state
  = (Ok VUndefined,
     {| this := Sample.manager; env := tt;
        trace :=
          [ Invoke (VRef (Obj 4)) "getExtension" [AVal (VStr "WEBGL_lose_context")];
            Invoke (VRef (Obj 5)) "loseContext" [];
            Invoke (VRef (Obj 9)) "getExtension" [AVal (VStr "WEBGL_lose_context")];
            Invoke (VRef (Obj 1)) "deleteContext" [AVal (VStr "3")] ] |}).
Proof.
  rewrite (proj2 (proj2 (disposeGlContexts_visits_every_context
             Sample.host Sample.module (VRef (Obj 1)) Sample.state eq_refl))
             (VRef (Obj 2)) ["1"; "2"; "3"] eq_refl eq_refl eq_refl).
  reflexivity.
Defined.

(** ** Event handlers *)

Lemma strict_eq_refl (v : Value) : strict_eq v v = true.
Proof.
  destruct v as [| |b|n|str|r]; simpl; try done.
  - by destruct b.
  - apply Qeq_bool_iff. reflexivity.
  - apply String.eqb_refl.
  - by apply bool_decide_eq_true.
Qed.

Lemma patchEventHandler_key (self : ManagerObject) (eventHandler : EventHandler) :
  ModuleManager.key_kind eventHandler = true ->
  handlerFunc (ModuleManager.patchEventHandler self eventHandler)
  = if truthy (prop (__options self) "captureTabKey")
    then handlerFunc eventHandler
    else KeyWrapper (handlerFunc eventHandler).
Proof.
  unfold ModuleManager.key_kind. intros [Ht Hs]%andb_true_iff.
  unfold ModuleManager.patchEventHandler, ModuleManager._patchKeyEventHandler,
    strict_ne.
  rewrite Ht, Hs. simpl.
  destruct (truthy (prop _ "captureFocusOnComponent")),
           (truthy (prop _ "captureTabKey")); reflexivity.
Qed.

Lemma patchEventHandler_resize (self : ManagerObject) (eventHandler : EventHandler) :
  ModuleManager.resize_kind eventHandler = true ->
  ModuleManager.patchEventHandler self eventHandler
  = ModuleManager.set_handlerFunc
      (ResizeWrapper (__options self) (__canvasElement self)
         (handlerFunc eventHandler))
      eventHandler.
Proof.
  unfold ModuleManager.resize_kind. intros [Ht Hs]%andb_true_iff.
  apply String.eqb_eq in Hs.
  unfold ModuleManager.patchEventHandler, ModuleManager._patchKeyEventHandler,
    ModuleManager._patchResizeEventHandler, strict_ne.
  rewrite Ht, Hs. unfold ModuleManager.startsWith. simpl.
  rewrite Ht, Hs. reflexivity.
Qed.

(** ** The patched registration function *)

Lemma patchEventHandler_other (self : ManagerObject) (eventHandler : EventHandler) :
  ModuleManager.key_kind eventHandler = false ->
  ModuleManager.resize_kind eventHandler = false ->
  ModuleManager.fullscreenchange_kind eventHandler = false ->
  ModuleManager.patchEventHandler self eventHandler = eventHandler.
Proof.
  unfold ModuleManager.key_kind, ModuleManager.resize_kind,
    ModuleManager.fullscreenchange_kind.
  intros Hkey Hresize Hfullscreen.
  unfold ModuleManager.patchEventHandler, ModuleManager._patchKeyEventHandler,
    ModuleManager._patchResizeEventHandler,
    ModuleManager._patchFullscreenchangedEventHandler, strict_ne.
  destruct (strict_eq (target eventHandler) window) eqn:Hw,
           (strict_eq (target eventHandler) document) eqn:Hd,
           (truthy (prop (__options self) "resizeCanvasOnFullscreenChange")) eqn:Hfs;
    simpl in Hkey, Hresize, Hfullscreen;
    repeat (simpl; rewrite ?Hw, ?Hd, ?Hfs, ?Hkey, ?Hresize, ?Hfullscreen);
    reflexivity.
Qed.

(** C10. A call of the patched [registerOrRemoveHandler] makes one call
    to the host, of the original registration function on the
    [eventHandler] as the three patches leave it, and nothing else, for
    every [eventHandler]; one that is of none of the three kinds is passed
    on as it came. *)
Theorem patchedRegister_calls_original_once {E} (host : Host E)
    (predefinedFunction : Value) (eventHandler : EventHandler) (s : State E) :
  let patched := ModuleManager.patchEventHandler (this s) eventHandler in
  let registration := Apply predefinedFunction VUndefined [AHandler patched] in
  let after :=
    snd (ModuleManager.patchedRegisterOrRemoveHandler host predefinedFunction
           eventHandler s) in
  trace after = (trace s ++ [registration])%list
  /\ env after = snd (host_call host registration (env s))
  /\ this after = this s
  /\ (ModuleManager.key_kind eventHandler = false ->
      ModuleManager.resize_kind eventHandler = false ->
      ModuleManager.fullscreenchange_kind eventHandler = false ->
      patched = eventHandler).
Proof.
  intros patched registration after.
  split; [|split; [|split]].
  - unfold after, ModuleManager.patchedRegisterOrRemoveHandler, bind, get_this,
      apply, hostcall. fold patched. fold registration.
    by destruct (host_call host registration (env s)) as [[v|e] e'].
  - unfold after, ModuleManager.patchedRegisterOrRemoveHandler, bind, get_this,
      apply, hostcall. fold patched. fold registration.
    by destruct (host_call host registration (env s)) as [[v|e] e'].
  - unfold after, ModuleManager.patchedRegisterOrRemoveHandler, bind, get_this,
      apply, hostcall. fold patched. fold registration.
    by destruct (host_call host registration (env s)) as [[v|e] e'].
  - apply patchEventHandler_other.
Qed.

(** A [mousedown] handler on the canvas is registered as it came. *)
Lemma patchedRegister_calls_original_once_witness :
  ModuleManager.patchEventHandler Sample.manager Sample.mousedownHandler
  = Sample.mousedownHandler.
Proof.
  apply (proj2 (proj2 (proj2 (patchedRegister_calls_original_once Sample.host
                  (VRef (Obj 22)) Sample.mousedownHandler Sample.state)))).
  all: reflexivity.
Defined.

(** ** The options record after construction *)

Section KeepsOptions.

Context {E : Type} (host : Host E).

Lemma keeps_ret {A} (a : A) : keeps_options (ret (E := E) a).
Proof. by intros s. Qed.

Lemma keeps_throw {A} (e : Exn) : keeps_options (throw (E := E) (A := A) e).
Proof. by intros s. Qed.

Lemma keeps_bind {A B} (m : M E A) (k : A -> M E B) :
  keeps_options m -> (forall a, keeps_options (k a)) -> keeps_options (bind m k).
Proof.
  intros Hm Hk s. unfold bind. specialize (Hm s).
  destruct (m s) as [[a|e] s']; simpl in *; [|done].
  by rewrite Hk.
Qed.

Lemma keeps_try_catch {A} (body : M E A) (handler : Exn -> M E A) :
  keeps_options body -> (forall e, keeps_options (handler e)) ->
  keeps_options (try_catch body handler).
Proof.
  intros Hb Hh s. unfold try_catch. specialize (Hb s).
  destruct (body s) as [[a|e] s']; simpl in *; [done|].
  by rewrite Hh.
Qed.

Lemma keeps_get_this : keeps_options (get_this (E := E)).
Proof. by intros s. Qed.

Lemma keeps_get_prop (o : Value) (p : string) : keeps_options (get_prop host o p).
Proof. intros s. unfold get_prop. by destruct o as [| | | | |[]]. Qed.

Lemma keeps_object_keys (o : Value) : keeps_options (object_keys host o).
Proof. intros s. unfold object_keys. by destruct o as [| | | | |[]]. Qed.

Lemma keeps_instanceof (v : Value) (C : string) : keeps_options (instanceof host v C).
Proof. intros s. unfold instanceof. by destruct v as [| | | | |[]]. Qed.

Lemma keeps_hostcall (c : Call) : keeps_options (hostcall host c).
Proof. intros s. unfold hostcall. by destruct (host_call host c (env s)). Qed.

Lemma keeps_invoke (receiver : Value) (method : string) (args : list Arg) :
  keeps_options (invoke host receiver method args).
Proof.
  unfold invoke.
  destruct receiver as [| | | | |[]];
    first [apply keeps_throw | apply keeps_hostcall].
Qed.

Lemma keeps_apply (f thisArg : Value) (args : list Arg) :
  keeps_options (apply host f thisArg args).
Proof. apply keeps_hostcall. Qed.

Lemma keeps_assign (object : Value) (property : string) (v : Arg) :
  keeps_options (assign host object property v).
Proof.
  unfold assign.
  destruct object; first [apply keeps_throw | apply keeps_hostcall].
Qed.

Lemma keeps_write_moduleInstance (v : Value) :
  keeps_options (ModuleManager.write_moduleInstance (E := E) v).
Proof. by intros s. Qed.

Lemma keeps_forEach {A} (l : list A) (f : A -> M E Value) :
  (forall x, keeps_options (f x)) -> keeps_options (forEach l f).
Proof.
  intros Hf. induction l as [|x l IH]; simpl.
  - apply keeps_ret.
  - apply keeps_bind; [apply Hf | intros _; apply IH].
Qed.

(** One step of a proof that a computation keeps the options: through
    the structure of the computation down to the primitives. *)
Ltac keeps_step :=
  match goal with
  | |- keeps_options (bind _ _) => apply keeps_bind; [|intros ?]
  | |- keeps_options (try_catch _ _) => apply keeps_try_catch; [|intros ?]
  | |- keeps_options (ret _) => apply keeps_ret
  | |- keeps_options (throw _) => apply keeps_throw
  | |- keeps_options get_this => apply keeps_get_this
  | |- keeps_options (get_prop _ _ _) => apply keeps_get_prop
  | |- keeps_options (object_keys _ _) => apply keeps_object_keys
  | |- keeps_options (instanceof _ _ _) => apply keeps_instanceof
  | |- keeps_options (invoke _ _ _ _) => apply keeps_invoke
  | |- keeps_options (apply _ _ _ _) => apply keeps_apply
  | |- keeps_options (assign _ _ _ _) => apply keeps_assign
  | |- keeps_options (ModuleManager.write_moduleInstance _) =>
      apply keeps_write_moduleInstance
  | |- keeps_options (forEach _ _) => apply keeps_forEach; intros ?
  | |- keeps_options (if ?b then _ else _) => destruct b
  end.

Ltac keeps := repeat keeps_step.

Lemma keeps_disposeGlContexts (module : Value) :
  keeps_options (Manager.__disposeGlContexts host module).
Proof. unfold Manager.__disposeGlContexts, Manager.disposeContext. keeps. Qed.

Lemma keeps_fixCanvasSizing : keeps_options (ModuleManager._fixCanvasSizing host).
Proof. unfold ModuleManager._fixCanvasSizing. keeps. Qed.

Lemma keeps_fixCanvasViewport : keeps_options (ModuleManager._fixCanvasViewport host).
Proof. unfold ModuleManager._fixCanvasViewport. keeps. Qed.

Lemma keeps_resizeFixups (options : Object) (canvasElement : Value) :
  keeps_options (ModuleManager.resizeFixups host options canvasElement).
Proof.
  unfold ModuleManager.resizeFixups. keeps;
    first [apply keeps_fixCanvasSizing | apply keeps_fixCanvasViewport].
Qed.

Lemma keeps_fullscreenchangeFixups (canvasElement : Value) (evt : Event) :
  keeps_options (ModuleManager.fullscreenchangeFixups host canvasElement evt).
Proof.
  unfold ModuleManager.fullscreenchangeFixups. keeps;
    first [apply keeps_fixCanvasSizing | apply keeps_fixCanvasViewport].
Qed.

Lemma keeps_run_handler (handlerFunc : HandlerFunc) (evt : Event) :
  keeps_options (ModuleManager.run_handler host handlerFunc evt).
Proof.
  induction handlerFunc as [f|pre IH|options canvasElement pre IH|canvasElement pre IH];
    simpl.
  - apply keeps_apply.
  - keeps; apply IH.
  - apply keeps_bind; [keeps; apply IH | intros _; apply keeps_resizeFixups].
  - apply keeps_bind; [apply IH | intros _; apply keeps_fullscreenchangeFixups].
Qed.

Lemma keeps_patchModule : keeps_options (ModuleManager._patchModule host).
Proof.
  unfold ModuleManager._patchModule, ModuleManager._patchCanvasQueries,
    ModuleManager._attachFocusInvokers, ModuleManager._patchGlViewport,
    ModuleManager._patchEventHandlers.
  keeps.
Qed.

Lemma keeps_initializeModule : keeps_options (ModuleManager._initializeModule host).
Proof.
  unfold ModuleManager._initializeModule, ModuleManager.moduleConfig,
    Manager.__getLocateFile, ModuleManager._getAbortHandler,
    Manager.__getPrintHandler, Manager.__getPrintErrHandler.
  keeps. apply keeps_patchModule.
Qed.

Lemma keeps_new_FocusEvent (type : string) (relatedTarget : Value) :
  keeps_options (ModuleManager.new_FocusEvent host type relatedTarget).
Proof.
  unfold ModuleManager.new_FocusEvent.
  destruct relatedTarget; keeps.
Qed.

Lemma keeps_run (op : ModuleManager.Operation) :
  keeps_options (ModuleManager.run host op).
Proof.
  destruct op; simpl.
  - apply keeps_initializeModule.
  - unfold ModuleManager.callMain. keeps.
  - unfold ModuleManager.abort. keeps.
  - unfold ModuleManager.pauseMainLoop. keeps.
  - unfold ModuleManager.resumeMainLoop. keeps.
  - unfold ModuleManager.requestFullscreen. keeps.
  - unfold ModuleManager.exitFullscreen. keeps.
  - unfold ModuleManager.onResizeCanvas, ModuleManager._handleResizeCanvas.
    keeps; apply keeps_new_FocusEvent.
  - apply keeps_run_handler.
  - unfold ModuleManager.abortHandler. keeps. apply keeps_disposeGlContexts.
  - unfold ModuleManager.patchedRegisterOrRemoveHandler. keeps.
  - unfold ModuleManager.patchedCreateContext. keeps.
  - unfold ModuleManager.focusInvoker. keeps.
Qed.

End KeepsOptions.

(** C9. [initialize] leaves the manager with the options [__setOptions]
    computes from the user's record at construction, also when the factory
    or a patch fails; and every later operation (the rest of [initialize],
    the public methods, an installed event-handler function, the abort
    handler, the patched registration and context-creation functions, the
    focus handler) leaves [this.__options] exactly as it found it, on
    every host, from every state, and through any sequence of them. *)
Theorem options_never_written {E} (host : Host E) :
  (forall moduleFactory componentElement canvasElement consoleElement
          userOptions (s : State E),
     __options (this (snd (ModuleManager.initialize host moduleFactory
                             componentElement canvasElement consoleElement
                             userOptions s)))
     = Options.__setOptions userOptions)
  /\ (forall (op : ModuleManager.Operation) (s : State E),
        __options (this (snd (ModuleManager.run host op s)))
        = __options (this s))
  /\ (forall (ops : list ModuleManager.Operation) (s : State E),
        __options (this (fold_left
                           (fun s op => snd (ModuleManager.run host op s)) ops s))
        = __options (this s)).
Proof.
  split; [|split].
  - intros. unfold ModuleManager.initialize, bind, set_this.
    match goal with |- context [ModuleManager._initializeModule host ?st] =>
      pose proof (keeps_initializeModule host st) as Hkeep;
      destruct (ModuleManager._initializeModule host st) as [[v|e] s']
    end; simpl in *; by rewrite Hkeep.
  - intros op s. apply keeps_run.
  - intros ops. induction ops as [|op ops IH]; intros s; simpl; [done|].
    rewrite IH. apply keeps_run.
Qed.

(** ** The exposed operations *)

Lemma calls_made_spec {E A} (m : M E A) (s : State E) (calls : list Call) :
  trace (snd (m s)) = (trace s ++ calls)%list -> calls_made m s = calls.
Proof.
  intros H. unfold calls_made. rewrite H. by rewrite drop_app_length.
Qed.

Lemma calls_made_invoke {E} (host : Host E) (receiver : Value) (method : string)
    (args : list Arg) (s : State E) :
  is_object receiver = true ->
  calls_made (invoke host receiver method args) s = [Invoke receiver method args].
Proof.
  intros Hobj. apply calls_made_spec.
  destruct receiver as [| | | | |[]]; try discriminate; simpl;
    unfold hostcall; by destruct (host_call host _ (env s)).
Qed.

(** C4 as documented fails: on the sample host, [requestFullscreen] calls
    the method of the canvas element, where a forward to the wrapped module
    would call the module. *)
Lemma requestFullscreen_not_direct_forward :
  calls_made (ModuleManager.call_exposed Sample.host
                ModuleManager.ex_requestFullscreen []) Sample.state
    = [Invoke Sample.canvasElement "requestFullscreen" []]
  /\ calls_made (ModuleManager.forward Sample.host "requestFullscreen" [])
       Sample.state
    = [Invoke Sample.module "requestFullscreen" []]
  /\ ~ direct_forward Sample.host ModuleManager.ex_requestFullscreen.
Proof.
  split; [reflexivity|]. split; [reflexivity|].
  intros Hforward. specialize (Hforward [] Sample.state).
  vm_compute in Hforward. discriminate.
Qed.

Section GrowsTrace.

Context {E : Type} (host : Host E).

Lemma grows_ret {A} (a : A) : grows_trace (ret (E := E) a).
Proof. intros s. exists []. simpl. by rewrite app_nil_r. Qed.

Lemma grows_throw {A} (e : Exn) : grows_trace (throw (E := E) (A := A) e).
Proof. intros s. exists []. simpl. by rewrite app_nil_r. Qed.

Lemma grows_bind {A B} (m : M E A) (k : A -> M E B) :
  grows_trace m -> (forall a, grows_trace (k a)) -> grows_trace (bind m k).
Proof.
  intros Hm Hk s. unfold bind. destruct (Hm s) as [calls Hcalls].
  destruct (m s) as [[a|e] s']; simpl in *; [|by exists calls].
  destruct (Hk a s') as [calls' Hcalls'].
  exists (calls ++ calls')%list. by rewrite Hcalls', Hcalls, app_assoc.
Qed.

Lemma grows_get_this : grows_trace (get_this (E := E)).
Proof. intros s. exists []. simpl. by rewrite app_nil_r. Qed.

Lemma grows_get_prop (o : Value) (p : string) : grows_trace (get_prop host o p).
Proof.
  intros s. exists []. rewrite app_nil_r. unfold get_prop.
  by destruct o as [| | | | |[]].
Qed.

Lemma grows_instanceof (v : Value) (C : string) : grows_trace (instanceof host v C).
Proof.
  intros s. exists []. rewrite app_nil_r. unfold instanceof.
  by destruct v as [| | | | |[]].
Qed.

Lemma grows_hostcall (c : Call) : grows_trace (hostcall host c).
Proof.
  intros s. exists [c]. unfold hostcall.
  by destruct (host_call host c (env s)).
Qed.

Lemma grows_invoke (receiver : Value) (method : string) (args : list Arg) :
  grows_trace (invoke host receiver method args).
Proof.
  unfold invoke.
  destruct receiver as [| | | | |[]];
    first [apply grows_throw | apply grows_hostcall].
Qed.

Lemma grows_assign (object : Value) (property : string) (v : Arg) :
  grows_trace (assign host object property v).
Proof.
  unfold assign.
  destruct object; first [apply grows_throw | apply grows_hostcall].
Qed.

Ltac grows_step :=
  match goal with
  | |- grows_trace (bind _ _) => apply grows_bind; [|intros ?]
  | |- grows_trace (ret _) => apply grows_ret
  | |- grows_trace (throw _) => apply grows_throw
  | |- grows_trace get_this => apply grows_get_this
  | |- grows_trace (get_prop _ _ _) => apply grows_get_prop
  | |- grows_trace (instanceof _ _ _) => apply grows_instanceof
  | |- grows_trace (invoke _ _ _ _) => apply grows_invoke
  | |- grows_trace (assign _ _ _ _) => apply grows_assign
  | |- grows_trace (if ?b then _ else _) => destruct b
  end.

Lemma grows_patchModule : grows_trace (ModuleManager._patchModule host).
Proof.
  unfold ModuleManager._patchModule, ModuleManager._patchCanvasQueries,
    ModuleManager._attachFocusInvokers, ModuleManager._patchGlViewport,
    ModuleManager._patchEventHandlers.
  repeat grows_step.
Qed.

Lemma grows_moduleConfig : grows_trace (ModuleManager.moduleConfig host).
Proof.
  unfold ModuleManager.moduleConfig, Manager.__getLocateFile,
    ModuleManager._getAbortHandler, Manager.__getPrintHandler,
    Manager.__getPrintErrHandler.
  repeat grows_step.
Qed.

(** [initialize], once the configuration is built: the call of the
    factory, the assignment of the instance, [_patchModule], and the
    manager as the result. *)
Lemma initialize_after_configuration (moduleFactory componentElement
    canvasElement consoleElement : Value) (userOptions : Object)
    (s s1 : State E) (config : ModuleConfig) :
  let constructed :=
    {| this := ModuleManager.constructor moduleFactory componentElement
                 canvasElement consoleElement userOptions;
       env := env s; trace := trace s |} in
  ModuleManager.moduleConfig host constructed = (Ok config, s1) ->
  ModuleManager.initialize host moduleFactory componentElement canvasElement
    consoleElement userOptions s
  = (let* _ :=
       (let* instance :=
          hostcall host (Apply moduleFactory (VRef Self) [AConfig config]) in
        ModuleManager.write_moduleInstance instance
        >> ModuleManager._patchModule host) in
     get_this) s1.
Proof.
  intros constructed Hconfig. unfold constructed in Hconfig.
  unfold ModuleManager.initialize, ModuleManager._initializeModule.
  unfold bind at 1. unfold set_this at 1.
  unfold bind at 1. unfold bind at 1. unfold get_this at 1.
  unfold bind at 1. simpl. rewrite Hconfig.
  reflexivity.
Qed.

End GrowsTrace.

(** C4, amended. [callMain], [abort], [pauseMainLoop] and
    [resumeMainLoop] forward to the entry point of the same name of the
    wrapped module and return [undefined]: [callMain] with its first
    argument, [abort] with its first argument or the default message and
    with any exception swallowed, the other two with no argument.
    [requestFullscreen] calls the method of that name of the canvas
    element, not of the module, and returns its result.  [onResizeCanvas]
    does nothing when [resizeCanvasOnElementSizing] is off; otherwise it
    dispatches on the window one [resize] event, whose [relatedTarget] is
    the [target] of its first argument when that is an [EventTarget] and
    [null] when it is [undefined] or [null], and for any other target it
    throws a [TypeError] and dispatches nothing.  [initialize] builds the
    configuration and calls the module factory with it; when the factory
    fails nothing else is called, and when it returns a module
    [initialize] stores it and goes on exactly as [_patchModule] does on
    it, returning the manager. *)
Theorem exposed_operations_calls {E} (host : Host E) (s : State E) :
  let module := _moduleInstance (this s) in
  let canvas := __canvasElement (this s) in
  let run := fun op args => ModuleManager.call_exposed host op args s in
  let calls := fun op args =>
    calls_made (ModuleManager.call_exposed host op args) s in
  let dispatch := fun relatedTarget =>
    Invoke window "dispatchEvent" [AEvent (resize_event relatedTarget)] in
  (forall args,
     run ModuleManager.ex_callMain args
     = (ModuleManager.forward host "callMain" [nth 0 args VUndefined]
        >> ret VUndefined) s
     /\ run ModuleManager.ex_abort args
        = try_catch
            (ModuleManager.forward host "abort"
               [abort_message (nth 0 args VUndefined)] >> ret VUndefined)
            (fun _ => ret VUndefined) s
     /\ run ModuleManager.ex_pauseMainLoop args
        = (ModuleManager.forward host "pauseMainLoop" [] >> ret VUndefined) s
     /\ run ModuleManager.ex_resumeMainLoop args
        = (ModuleManager.forward host "resumeMainLoop" [] >> ret VUndefined) s
     /\ run ModuleManager.ex_requestFullscreen args
        = invoke host canvas "requestFullscreen" [] s)
  /\ (is_object module = true ->
      forall args,
        calls ModuleManager.ex_callMain args
        = [Invoke module "callMain" [AVal (nth 0 args VUndefined)]]
        /\ calls ModuleManager.ex_abort args
           = [Invoke module "abort"
                [AVal (abort_message (nth 0 args VUndefined))]]
        /\ calls ModuleManager.ex_pauseMainLoop args
           = [Invoke module "pauseMainLoop" []]
        /\ calls ModuleManager.ex_resumeMainLoop args
           = [Invoke module "resumeMainLoop" []])
  /\ (is_object canvas = true ->
      forall args,
        calls ModuleManager.ex_requestFullscreen args
        = [Invoke canvas "requestFullscreen" []])
  /\ (forall args,
        (truthy (prop (__options (this s)) "resizeCanvasOnElementSizing") = false ->
           run ModuleManager.ex_onResizeCanvas args = (Ok VUndefined, s))
        /\ (forall target,
              truthy (prop (__options (this s)) "resizeCanvasOnElementSizing") = true ->
              get_prop host (nth 0 args VUndefined) "target" s = (Ok target, s) ->
              (target = VUndefined \/ target = VNull ->
                 calls ModuleManager.ex_onResizeCanvas args = [dispatch VNull])
              /\ (instanceof host target "EventTarget" s = (Ok true, s) ->
                  calls ModuleManager.ex_onResizeCanvas args = [dispatch target])
              /\ (target <> VUndefined -> target <> VNull ->
                  instanceof host target "EventTarget" s = (Ok false, s) ->
                  run ModuleManager.ex_onResizeCanvas args = (Throw TypeError, s))))
  /\ (forall moduleFactory componentElement canvasElement consoleElement
             userOptions config s1,
        let constructed :=
          {| this := ModuleManager.constructor moduleFactory componentElement
                       canvasElement consoleElement userOptions;
             env := env s; trace := trace s |} in
        let factoryCall := Apply moduleFactory (VRef Self) [AConfig config] in
        let initialize :=
          ModuleManager.initialize host moduleFactory componentElement
            canvasElement consoleElement userOptions in
        ModuleManager.moduleConfig host constructed = (Ok config, s1) ->
        (forall e e2,
           host_call host factoryCall (env s1) = (Throw e, e2) ->
           fst (initialize s) = Throw e
           /\ calls_made initialize s
              = (calls_made (ModuleManager.moduleConfig host) constructed
                 ++ [factoryCall])%list)
        /\ (forall instance e2,
              host_call host factoryCall (env s1) = (Ok instance, e2) ->
              let stored :=
                {| this := ModuleManager.set_moduleInstance instance (this s1);
                   env := e2;
                   trace := (trace s1 ++ [factoryCall])%list |} in
              initialize s
              = (let* _ := ModuleManager._patchModule host in get_this) stored
              /\ calls_made initialize s
                 = (calls_made (ModuleManager.moduleConfig host) constructed
                    ++ [factoryCall]
                    ++ calls_made (ModuleManager._patchModule host) stored)%list)).
Proof.
  intros module canvas run calls dispatch.
  split; [|split; [|split; [|split]]].
  - intros args. repeat split; reflexivity.
  - intros Hmodule args. unfold calls.
    assert (Hcall : forall method margs,
              trace (snd (invoke host module method margs s))
              = (trace s ++ [Invoke module method margs])%list).
    { intros method margs.
      pose proof (calls_made_invoke host module method margs s Hmodule) as Hc.
      unfold calls_made in Hc.
      destruct (grows_invoke host module method margs s) as [l Hl].
      rewrite Hl, drop_app_length in Hc. by rewrite Hl, Hc. }
    repeat split; apply calls_made_spec; simpl;
      unfold ModuleManager.callMain, ModuleManager.abort,
        ModuleManager.pauseMainLoop, ModuleManager.resumeMainLoop,
        try_catch, bind, get_this; fold module;
      match goal with
      | |- context [invoke host module ?method ?margs s] =>
          specialize (Hcall method margs);
          destruct (invoke host module method margs s) as [[v|e] s']
      end; exact Hcall.
  - intros Hcanvas args. unfold calls.
    apply (calls_made_invoke host canvas _ [] s Hcanvas).
  - intros args. split.
    + intros Hoff. unfold run. simpl.
      unfold ModuleManager.onResizeCanvas, bind, get_this. by rewrite Hoff.
    + intros target Hon Htarget.
      assert (Hrun : run ModuleManager.ex_onResizeCanvas args
                = ((let* event := ModuleManager.new_FocusEvent host "resize" target in
                    invoke host window "dispatchEvent" [AEvent event]
                    >> ret VUndefined)
                   >> ret VUndefined) s).
      { unfold run. simpl.
        unfold ModuleManager.onResizeCanvas, ModuleManager._handleResizeCanvas.
        unfold bind at 1. unfold get_this at 1. rewrite Hon.
        unfold bind at 1. unfold bind at 1. rewrite Htarget.
        reflexivity. }
      assert (Hdispatch : forall relatedTarget,
                ModuleManager.new_FocusEvent host "resize" target s
                  = (Ok (resize_event relatedTarget), s) ->
                calls ModuleManager.ex_onResizeCanvas args = [dispatch relatedTarget]).
      { intros relatedTarget Hevent. apply calls_made_spec.
        fold (run ModuleManager.ex_onResizeCanvas args). rewrite Hrun.
        unfold bind at 1. unfold bind at 1. rewrite Hevent.
        unfold bind, invoke, window, hostcall.
        fold window. fold (dispatch relatedTarget).
        by destruct (host_call host _ (env s)) as [[v|e] e']. }
      split; [|split].
      * intros [-> | ->]; by apply Hdispatch.
      * intros Htrue. apply Hdispatch. unfold ModuleManager.new_FocusEvent.
        destruct target as [| | | | |]; try (by vm_compute in Htrue);
          unfold bind; by rewrite Htrue.
      * intros Hu Hn Hfalse. rewrite Hrun.
        unfold ModuleManager.new_FocusEvent.
        destruct target as [| | | | |]; try done;
          unfold bind at 1; unfold bind at 1; unfold bind at 1;
          by rewrite Hfalse.
  - intros moduleFactory componentElement canvasElement consoleElement
      userOptions config s1 constructed factoryCall initialize Hconfig.
    pose proof (initialize_after_configuration host _ _ _ _ _ s s1 config Hconfig)
      as Hinit.
    fold initialize factoryCall in Hinit.
    destruct (grows_moduleConfig host constructed) as [building Hbuilding].
    rewrite (calls_made_spec _ _ _ Hbuilding).
    rewrite Hconfig in Hbuilding. simpl in Hbuilding.
    split.
    + intros e e2 Hcall. rewrite Hinit.
      unfold bind, hostcall. rewrite Hcall. simpl. split; [done|].
      apply calls_made_spec. rewrite Hinit.
      unfold bind, hostcall. rewrite Hcall. simpl.
      rewrite Hbuilding. by rewrite <- app_assoc.
    + intros instance e2 Hcall stored.
      assert (Hrun : initialize s
                = (let* _ := ModuleManager._patchModule host in get_this) stored).
      { rewrite Hinit. unfold bind at 1. unfold bind at 1.
        unfold hostcall. rewrite Hcall.
        unfold bind at 1. unfold ModuleManager.write_moduleInstance. simpl.
        fold stored. reflexivity. }
      split; [done|].
      apply calls_made_spec. rewrite Hrun.
      destruct (grows_patchModule host stored) as [patching Hpatching].
      rewrite (calls_made_spec _ _ _ Hpatching).
      unfold bind, get_this.
      destruct (ModuleManager._patchModule host stored) as [[v|e] s3];
        simpl in *; rewrite Hpatching; unfold stored; simpl;
        rewrite Hbuilding; by rewrite <- !app_assoc.
Qed.

(** On the sample host: [requestFullscreen] reaches the canvas element,
    and [initialize] empties the console, calls the factory [Obj 20] and
    makes the five calls of [_patchModule] on the module it returned. *)
Lemma exposed_operations_calls_witness :
  let config :=
    {| cfg_locateFile := LocateFile VUndefined;
       cfg_initialModule := VRef EmptyObject;
       cfg_noInitialRun := VBool true;
       cfg_keyboardListeningElement := Sample.componentElement;
       cfg_canvas := Sample.canvasElement;
       cfg_onAbort := AbortHandler (__options Sample.manager) (VRef EmptyObject);
       cfg_print := PrintHandler VNull Sample.consoleElement;
       cfg_printErr := PrintErrHandler VNull |} in
  let focus := AClosure (FocusInvoker Sample.componentElement) in
  calls_made (ModuleManager.call_exposed Sample.host
                ModuleManager.ex_requestFullscreen []) Sample.state
  = [Invoke Sample.canvasElement "requestFullscreen" []]
  /\ calls_made (ModuleManager.initialize Sample.host Sample.moduleFactory
                   Sample.componentElement Sample.canvasElement
                   Sample.consoleElement ∅) Sample.state
     = [ Assign Sample.consoleElement "value" (AVal (VStr ""));
         Apply Sample.moduleFactory (VRef Self) [AConfig config];
         Assign (VRef (Obj 8)) "#canvas" (AVal Sample.canvasElement);
         Invoke Sample.canvasElement "addEventListener"
           [AVal (VStr "mousedown"); focus; AVal (VBool true)];
         Invoke Sample.canvasElement "addEventListener"
           [AVal (VStr "touchstart"); focus; AVal (VBool true)];
         Assign (VRef (Obj 1)) "createContext"
           (AClosure (PatchedCreateContext (VRef (Obj 1)) (VRef (Obj 21))));
         Assign (VRef (Obj 7)) "registerOrRemoveHandler"
           (AClosure (PatchedRegisterOrRemoveHandler (VRef (Obj 22)))) ].
Proof.
  intros config focus.
  pose proof (exposed_operations_calls Sample.host Sample.state)
    as (_ & _ & Hfullscreen & _ & Hinitialize).
  split.
  - exact (Hfullscreen eq_refl []).
  - assert (Hconfig :
              ModuleManager.moduleConfig Sample.host
                {| this := ModuleManager.constructor Sample.moduleFactory
                             Sample.componentElement Sample.canvasElement
                             Sample.consoleElement ∅;
                   env := env Sample.state; trace := trace Sample.state |}
              = (Ok config,
                 {| this := ModuleManager.constructor Sample.moduleFactory
                              Sample.componentElement Sample.canvasElement
                              Sample.consoleElement ∅;
                    env := tt;
                    trace := [Assign Sample.consoleElement "value"
                                (AVal (VStr ""))] |}))
      by (vm_compute; reflexivity).
    rewrite (proj2 (proj2 (Hinitialize Sample.moduleFactory
               Sample.componentElement Sample.canvasElement
               Sample.consoleElement ∅ config _ Hconfig)
               Sample.module tt eq_refl)).
    by vm_compute.
Defined.

(** ** Event handlers, call by call *)

Section AppliesNothing.

Context {E : Type} (host : Host E).

Ltac nothing := intros s; exists []; rewrite app_nil_r.

Lemma nothing_ret {A} (a : A) : applies_nothing (ret (E := E) a).
Proof. by nothing. Qed.

Lemma nothing_throw {A} (e : Exn) : applies_nothing (throw (E := E) (A := A) e).
Proof. by nothing. Qed.

Lemma nothing_bind {A B} (m : M E A) (k : A -> M E B) :
  applies_nothing m -> (forall a, applies_nothing (k a)) ->
  applies_nothing (bind m k).
Proof.
  intros Hm Hk s. unfold bind. destruct (Hm s) as (calls & Hcalls & Hnone).
  destruct (m s) as [[a|e] s']; simpl in *; [|by exists calls].
  destruct (Hk a s') as (calls' & Hcalls' & Hnone').
  exists (calls ++ calls')%list. split.
  - by rewrite Hcalls', Hcalls, app_assoc.
  - rewrite forallb_app. by rewrite Hnone, Hnone'.
Qed.

Lemma nothing_get_this : applies_nothing (get_this (E := E)).
Proof. by nothing. Qed.

Lemma nothing_get_prop (o : Value) (p : string) :
  applies_nothing (get_prop host o p).
Proof. nothing. unfold get_prop. by destruct o as [| | | | |[]]. Qed.

Lemma nothing_hostcall (c : Call) :
  is_apply c = false -> applies_nothing (hostcall host c).
Proof.
  intros Hc s. exists [c]. unfold hostcall.
  destruct (host_call host c (env s)); simpl. by rewrite Hc.
Qed.

Lemma nothing_invoke (receiver : Value) (method : string) (args : list Arg) :
  applies_nothing (invoke host receiver method args).
Proof.
  unfold invoke. destruct receiver as [| | | | |[]];
    first [apply nothing_throw | by apply nothing_hostcall].
Qed.

Lemma nothing_assign (object : Value) (property : string) (v : Arg) :
  applies_nothing (assign host object property v).
Proof.
  unfold assign. destruct object;
    first [apply nothing_throw | by apply nothing_hostcall].
Qed.

Ltac nothing_step :=
  match goal with
  | |- applies_nothing (bind _ _) => apply nothing_bind; [|intros ?]
  | |- applies_nothing (ret _) => apply nothing_ret
  | |- applies_nothing (throw _) => apply nothing_throw
  | |- applies_nothing get_this => apply nothing_get_this
  | |- applies_nothing (get_prop _ _ _) => apply nothing_get_prop
  | |- applies_nothing (invoke _ _ _ _) => apply nothing_invoke
  | |- applies_nothing (assign _ _ _ _) => apply nothing_assign
  | |- applies_nothing (if ?b then _ else _) => destruct b
  end.

Lemma nothing_fixCanvasSizing : applies_nothing (ModuleManager._fixCanvasSizing host).
Proof. unfold ModuleManager._fixCanvasSizing. repeat nothing_step. Qed.

Lemma nothing_fixCanvasViewport :
  applies_nothing (ModuleManager._fixCanvasViewport host).
Proof. unfold ModuleManager._fixCanvasViewport. repeat nothing_step. Qed.

Lemma nothing_resizeFixups (options : Object) (canvasElement : Value) :
  applies_nothing (ModuleManager.resizeFixups host options canvasElement).
Proof.
  unfold ModuleManager.resizeFixups. repeat nothing_step;
    first [apply nothing_fixCanvasSizing | apply nothing_fixCanvasViewport].
Qed.

Lemma nothing_fullscreenchangeFixups (canvasElement : Value) (evt : Event) :
  applies_nothing (ModuleManager.fullscreenchangeFixups host canvasElement evt).
Proof.
  unfold ModuleManager.fullscreenchangeFixups. repeat nothing_step;
    first [apply nothing_fixCanvasSizing | apply nothing_fixCanvasViewport].
Qed.

(** A handler function of the module, applied and followed by fix-ups
    that apply nothing: its application is the first call and the only
    call of a function value. *)
Lemma applied_first (f : Value) (evt : Event) (fixups : M E Value) (s : State E) :
  applies_nothing fixups ->
  exists rest,
    calls_made (ModuleManager.run_handler host (Predefined f) evt >> fixups) s
    = Apply f VUndefined [AEvent evt] :: rest
    /\ forallb (fun c => negb (is_apply c)) rest = true.
Proof.
  intros Hfixups. set (application := Apply f VUndefined [AEvent evt]).
  destruct (host_call host application (env s)) as [[v|e] e'] eqn:Hcall.
  - destruct (Hfixups {| this := this s; env := e';
                         trace := (trace s ++ [application])%list |})
      as (rest & Hrest & Hnone).
    exists rest. split; [|done]. apply calls_made_spec.
    simpl. unfold bind, apply, hostcall. fold application. rewrite Hcall.
    rewrite Hrest. simpl. by rewrite <- app_assoc.
  - exists []. split; [|done]. apply calls_made_spec.
    simpl. unfold bind, apply, hostcall. fold application. by rewrite Hcall.
Qed.

Lemma applies_nothing_calls {A} (m : M E A) (s : State E) :
  applies_nothing m ->
  forallb (fun c => negb (is_apply c)) (calls_made m s) = true.
Proof.
  intros Hm. destruct (Hm s) as (calls & Hcalls & Hnone).
  by rewrite (calls_made_spec _ _ _ Hcalls).
Qed.

End AppliesNothing.

(** C8. For a handler registered on the window for an event type that
    starts with [key]: with [captureTabKey] off, the handler function put
    in its place returns at once, leaving everything as it was and calling
    nothing, on an event with key code 9, and on any other event does what
    the original does on that same event: when the original is a function
    [f] of the module, it makes exactly one call, [f(evt)] on the event as
    it came, and ends as that call ends; with [captureTabKey] on, the
    handler function is the original one. *)
Theorem key_handler_skips_tab {E} (host : Host E) (self : ManagerObject)
    (eventHandler : EventHandler) :
  target eventHandler = window ->
  ModuleManager.startsWith (eventTypeString eventHandler) "key" = true ->
  let original := handlerFunc eventHandler in
  let patched := handlerFunc (ModuleManager.patchEventHandler self eventHandler) in
  (truthy (prop (__options self) "captureTabKey") = false ->
     forall (evt : Event) (s : State E),
       (strict_eq (evt_keyCode evt) (VNum 9) = true ->
          ModuleManager.run_handler host patched evt s = (Ok VUndefined, s)
          /\ calls_made (ModuleManager.run_handler host patched evt) s = [])
       /\ (strict_eq (evt_keyCode evt) (VNum 9) = false ->
          ModuleManager.run_handler host patched evt s
          = (ModuleManager.run_handler host original evt >> ret VUndefined) s
          /\ forall f,
               original = Predefined f ->
               let application := Apply f VUndefined [AEvent evt] in
               let after := ModuleManager.run_handler host patched evt s in
               calls_made (ModuleManager.run_handler host patched evt) s
                 = [application]
               /\ env (snd after) = snd (host_call host application (env s))
               /\ fst after
                  = match fst (host_call host application (env s)) with
                    | Ok _ => Ok VUndefined
                    | Throw e => Throw e
                    end))
  /\ (truthy (prop (__options self) "captureTabKey") = true ->
        patched = original).
Proof.
  intros Htarget Htype original patched.
  assert (Hkind : ModuleManager.key_kind eventHandler = true).
  { unfold ModuleManager.key_kind. by rewrite Htarget, strict_eq_refl, Htype. }
  unfold patched. rewrite (patchEventHandler_key self eventHandler Hkind).
  split.
  - intros ->. intros evt s. split.
    + intros Htab. simpl. unfold strict_ne. rewrite Htab. simpl. split; [done|].
      apply calls_made_spec. simpl. by rewrite app_nil_r.
    + intros Hother. split.
      * simpl. unfold strict_ne. by rewrite Hother.
      * intros f Hf. unfold original in Hf. rewrite Hf.
        set (application := Apply f VUndefined [AEvent evt]).
        assert (Hrun : ModuleManager.run_handler host
                         (KeyWrapper (Predefined f)) evt s
                  = (hostcall host application >> ret VUndefined) s).
        { simpl. unfold strict_ne. by rewrite Hother. }
        cbv zeta.
        destruct (host_call host application (env s)) as [[v|e] e'] eqn:Hcall;
          (split; [apply calls_made_spec|]); rewrite Hrun;
          unfold bind, hostcall; by rewrite Hcall.
  - by intros ->.
Qed.

(** The sample [keydown] handler under the default options: TAB does not
    reach the module's handler [Obj 30], and ENTER reaches it, in one
    call. *)
Lemma key_handler_skips_tab_witness :
  let patched :=
    handlerFunc (ModuleManager.patchEventHandler Sample.manager
                   Sample.keydownHandler) in
  ModuleManager.run_handler Sample.host patched (Sample.keyEvent 9) Sample.state
    = (Ok VUndefined, Sample.state)
  /\ calls_made (ModuleManager.run_handler Sample.host patched (Sample.keyEvent 13))
       Sample.state
     = [Apply (VRef (Obj 30)) VUndefined [AEvent (Sample.keyEvent 13)]].
Proof.
  intros patched.
  pose proof (proj1 (key_handler_skips_tab Sample.host Sample.manager
                       Sample.keydownHandler eq_refl eq_refl) eq_refl) as Hkey.
  split.
  - apply (proj1 (proj1 (Hkey (Sample.keyEvent 9) Sample.state) eq_refl)).
  - apply (proj1 (proj2 (proj2 (Hkey (Sample.keyEvent 13) Sample.state) eq_refl)
                    (VRef (Obj 30)) eq_refl)).
Defined.

(** C7. For the handler the module registers on the window for [resize],
    the handler function put in its place behaves as follows.  With
    [resizeCanvasOnElementSizing] on, it runs the original handler, on the
    event as it is, when [evt.relatedTarget] is the canvas element, and
    does not run it otherwise: what it does then does not depend on the
    original handler at all.  An ordinary resize of the window has no
    [relatedTarget], so with a canvas element in place it is among the
    events that are not forwarded.  With the toggle off, every event is
    forwarded.  In each case the wrapper goes on to its size and viewport
    fix-ups.  When the original handler is a function [f] of the module, a
    forwarded event makes [f(evt)] the first call and the only call of a
    function value, and an event that is not forwarded makes no call of a
    function value at all. *)
Theorem resize_handler_filters_by_relatedTarget {E} (host : Host E)
    (self : ManagerObject) (eventHandler : EventHandler) :
  target eventHandler = window ->
  eventTypeString eventHandler = "resize" ->
  let original := handlerFunc eventHandler in
  let patched := handlerFunc (ModuleManager.patchEventHandler self eventHandler) in
  let options := __options self in
  let canvasElement := __canvasElement self in
  let fixups := ModuleManager.resizeFixups host options canvasElement in
  forall (evt : Event) (s : State E),
    let calls := calls_made (ModuleManager.run_handler host patched evt) s in
    let applied_once := fun f =>
      exists rest,
        calls = Apply f VUndefined [AEvent evt] :: rest
        /\ forallb (fun c => negb (is_apply c)) rest = true in
    (truthy (prop options "resizeCanvasOnElementSizing") = true ->
       (strict_eq (evt_relatedTarget evt) canvasElement = true ->
          ModuleManager.run_handler host patched evt s
          = (ModuleManager.run_handler host original evt >> fixups) s
          /\ forall f, original = Predefined f -> applied_once f)
       /\ (strict_eq (evt_relatedTarget evt) canvasElement = false ->
          ModuleManager.run_handler host patched evt s = fixups s
          /\ forallb (fun c => negb (is_apply c)) calls = true)
       /\ (forall r, canvasElement = VRef r ->
           evt_relatedTarget evt = VUndefined ->
          ModuleManager.run_handler host patched evt s = fixups s
          /\ forallb (fun c => negb (is_apply c)) calls = true))
    /\ (truthy (prop options "resizeCanvasOnElementSizing") = false ->
          ModuleManager.run_handler host patched evt s
          = (ModuleManager.run_handler host original evt >> fixups) s
          /\ forall f, original = Predefined f -> applied_once f).
Proof.
  intros Htarget Htype original patched options canvasElement fixups evt s
    calls applied_once.
  assert (Hkind : ModuleManager.resize_kind eventHandler = true).
  { unfold ModuleManager.resize_kind.
    by rewrite Htarget, strict_eq_refl, Htype. }
  assert (Hfixups : applies_nothing fixups) by apply nothing_resizeFixups.
  assert (Hpatched : patched = ResizeWrapper options canvasElement original).
  { unfold patched.
    by rewrite (patchEventHandler_resize self eventHandler Hkind). }
  assert (Hforwarded :
            ModuleManager.run_handler host patched evt
            = (ModuleManager.run_handler host original evt >> fixups) ->
            forall f, original = Predefined f -> applied_once f).
  { intros Hrun f Hf. unfold applied_once, calls. rewrite Hrun, Hf.
    by apply applied_first. }
  assert (Hskipped :
            ModuleManager.run_handler host patched evt = fixups ->
            forallb (fun c => negb (is_apply c)) calls = true).
  { intros Hrun. unfold calls. rewrite Hrun. by apply applies_nothing_calls. }
  assert (Hrun : ModuleManager.run_handler host patched evt
            = ((if truthy (prop options "resizeCanvasOnElementSizing")
                then
                  if strict_eq (evt_relatedTarget evt) canvasElement
                  then ModuleManager.run_handler host original evt
                  else ret VUndefined
                else ModuleManager.run_handler host original evt)
               >> fixups)).
  { by rewrite Hpatched. }
  split.
  - intros Hon. rewrite Hon in Hrun. split; [|split].
    + intros Hcanvas. rewrite Hcanvas in Hrun.
      split; [by rewrite Hrun | by apply Hforwarded].
    + intros Hother. rewrite Hother in Hrun.
      split; [by rewrite Hrun | by apply Hskipped].
    + intros r Hr Hno. rewrite Hr, Hno in Hrun. simpl in Hrun.
      split; [by rewrite Hrun | by apply Hskipped].
  - intros Hoff. rewrite Hoff in Hrun.
    split; [by rewrite Hrun | by apply Hforwarded].
Qed.

(** The sample [resize] handler under the default options: a resize of the
    whole window is not forwarded, the wrapper only asks for the context to
    fix the viewport; the event of a resize of the canvas reaches the
    module's handler [Obj 31] first. *)
Lemma resize_handler_filters_by_relatedTarget_witness :
  let patched :=
    handlerFunc (ModuleManager.patchEventHandler Sample.manager
                   Sample.resizeHandler) in
  forallb (fun c => negb (is_apply c))
    (calls_made (ModuleManager.run_handler Sample.host patched Sample.windowResize)
       Sample.state) = true
  /\ exists rest,
       calls_made (ModuleManager.run_handler Sample.host patched Sample.canvasResize)
         Sample.state
       = Apply (VRef (Obj 31)) VUndefined [AEvent Sample.canvasResize] :: rest
       /\ forallb (fun c => negb (is_apply c)) rest = true.
Proof.
  intros patched.
  pose proof (fun evt =>
    proj1 (resize_handler_filters_by_relatedTarget Sample.host Sample.manager
             Sample.resizeHandler eq_refl eq_refl evt Sample.state) eq_refl)
    as Hresize.
  split.
  - apply (proj2 (proj2 (proj2 (Hresize Sample.windowResize)) (Obj 11)
                    eq_refl eq_refl)).
  - apply (proj2 (proj1 (Hresize Sample.canvasResize) eq_refl)
             (VRef (Obj 31)) eq_refl).
Defined.

(** ** The viewport function of a created rendering context *)

(** C2, amended. When the patched [GL.createContext] creates a rendering
    context (the original function returns a truthy handle and
    [GL.getContext(handle).GLctx] is a context [gl]), it makes three calls:
    the original function, [GL.getContext], and the assignment to
    [gl.viewport] of the closure around the viewport function that was
    there.  Every call [(x0, y0, w0, h0)] of that closure makes one call,
    of the underlying viewport function on [gl]: with the backing-store
    width and height when [window.devicePixelRatio] is not 1 and each
    scaled dimension, [floor(w0 * dpr)] and [floor(h0 * dpr)], is the
    backing-store dimension or one more; and with the requested [w0] and
    [h0] unchanged in every other case, also when a scaled dimension is
    one less than the backing store.  [x0] and [y0] are always passed
    on. *)
Theorem created_context_viewport_snaps_from_above {E} (host : Host E)
    (devicePixelRatio : E -> Q) (canvas_of : E -> Value -> Viewport.Canvas)
    (times : Q -> Q -> Q)
    (GL predefinedCreateContext : Value) (args : list Arg) (s : State E)
    (handle context gl predefinedViewport : Value) (e1 e2 : E) :
  let create := Apply predefinedCreateContext GL args in
  let getContext := Invoke GL "getContext" [AVal handle] in
  let created :=
    {| this := this s; env := e2;
       trace := (trace s ++ [create; getContext])%list |} in
  let installed := PatchedViewport gl predefinedViewport in
  host_call host create (env s) = (Ok handle, e1) ->
  truthy handle = true ->
  is_object GL = true ->
  host_call host getContext e1 = (Ok context, e2) ->
  get_prop host context "GLctx" created = (Ok gl, created) ->
  truthy gl = true ->
  get_prop host gl "viewport" created = (Ok predefinedViewport, created) ->
  calls_made (ModuleManager.patchedCreateContext host GL predefinedCreateContext
                args) s
    = [create; getContext; Assign gl "viewport" (AClosure installed)]
  /\ forall (x0 y0 w0 h0 : Q) (s' : State E),
       let viewport :=
         PatchedContext.patchedViewport host devicePixelRatio canvas_of times
           gl predefinedViewport x0 y0 w0 h0 in
       let dpr := devicePixelRatio (env s') in
       let w := Viewport.Math_floor (times w0 dpr) in
       let h := Viewport.Math_floor (times h0 dpr) in
       let cw := Viewport.width (canvas_of (env s') gl) in
       let ch := Viewport.height (canvas_of (env s') gl) in
       let underlying := fun w h =>
         Apply predefinedViewport gl
           [ PatchedContext.number x0; PatchedContext.number y0;
             PatchedContext.number w; PatchedContext.number h ] in
       PatchedContext.call_viewport host devicePixelRatio canvas_of times
         installed x0 y0 w0 h0 = Some viewport
       /\ (~ dpr == 1 /\ cw <= w <= cw + 1 /\ ch <= h <= ch + 1 ->
           calls_made viewport s' = [underlying (inject_Z cw) (inject_Z ch)])
       /\ (~ (~ dpr == 1 /\ cw <= w <= cw + 1 /\ ch <= h <= ch + 1) ->
           calls_made viewport s' = [underlying w0 h0]).
Proof.
  intros create getContext created installed Hcreate Hhandle HGL HgetContext
    Hgl Htruthy Hviewport.
  split.
  - apply calls_made_spec.
    assert (Hinvoke : invoke host GL "getContext" [AVal handle]
                      = hostcall host getContext).
    { by destruct GL as [| | | | |[]]. }
    assert (Hassign : forall a, assign host gl "viewport" a
                                = hostcall host (Assign gl "viewport" a)).
    { intros a. by destruct gl as [| | | | |]. }
    unfold ModuleManager.patchedCreateContext.
    unfold bind at 1. unfold apply, hostcall at 1. fold create.
    rewrite Hcreate, Hhandle. simpl.
    unfold bind at 1. rewrite Hinvoke. unfold hostcall at 1. simpl.
    rewrite HgetContext.
    assert (Hstate : {| this := this s; env := e2;
                        trace := ((trace s ++ [create]) ++ [getContext])%list |}
                     = created).
    { unfold created. by rewrite <- app_assoc. }
    rewrite Hstate. unfold bind at 1. rewrite Hgl, Htruthy. simpl.
    unfold bind at 1. rewrite Hviewport.
    unfold bind. rewrite Hassign. unfold hostcall. fold installed.
    destruct (host_call host _ (env created)) as [[v|e] e3]; simpl;
      by rewrite <- app_assoc.
  - intros x0 y0 w0 h0 s' viewport dpr w h cw ch underlying.
    split; [reflexivity|].
    pose proof (viewport_size_rule
                  (fun x0 y0 w0 h0 =>
                     apply host predefinedViewport gl
                       [ PatchedContext.number x0; PatchedContext.number y0;
                         PatchedContext.number w0; PatchedContext.number h0 ]
                     >> ret VUndefined)
                  times dpr (canvas_of (env s') gl) x0 y0 w0 h0) as [Hsnap Hpass].
    assert (Hcall : forall w h,
              calls_made (apply host predefinedViewport gl
                            [ PatchedContext.number x0; PatchedContext.number y0;
                              PatchedContext.number w; PatchedContext.number h ]
                          >> ret VUndefined) s'
              = [underlying w h]).
    { intros w' h'. apply calls_made_spec. unfold bind, apply, hostcall.
      by destruct (host_call host _ (env s')) as [[v|e] e']. }
    split.
    + intros Hcond. unfold calls_made, viewport, PatchedContext.patchedViewport.
      fold dpr. rewrite (Hsnap Hcond). apply Hcall.
    + intros Hcond. unfold calls_made, viewport, PatchedContext.patchedViewport.
      fold dpr. rewrite (Hpass Hcond). apply Hcall.
Qed.

(** A context created on the display host: the closure is installed, and
    at the device pixel ratio 2 a request of 50 by 50 reaches the
    underlying viewport function [Obj 62] as the 100 by 100 of the backing
    store. *)
Lemma created_context_viewport_snaps_from_above_witness :
  calls_made (ModuleManager.patchedCreateContext Display.host Display.GL
                (VRef (Obj 21)) []) Sample.state
    = [ Apply (VRef (Obj 21)) Display.GL [];
        Invoke Display.GL "getContext" [AVal (VNum 1)];
        Assign Display.gl "viewport"
          (AClosure (PatchedViewport Display.gl (VRef (Obj 62)))) ]
  /\ calls_made
       (PatchedContext.patchedViewport Display.host Display.devicePixelRatio
          Display.canvas_of Qmult Display.gl (VRef (Obj 62)) 0 0 50 50)
       Sample.state
     = [ Apply (VRef (Obj 62)) Display.gl
           [ PatchedContext.number 0; PatchedContext.number 0;
             PatchedContext.number (inject_Z 100);
             PatchedContext.number (inject_Z 100) ] ].
Proof.
  pose proof (created_context_viewport_snaps_from_above Display.host
                Display.devicePixelRatio Display.canvas_of Qmult
                Display.GL (VRef (Obj 21)) [] Sample.state
                (VNum 1) (VRef (Obj 60)) Display.gl (VRef (Obj 62)) tt tt
                eq_refl eq_refl eq_refl eq_refl eq_refl eq_refl eq_refl)
    as [Hcreated Hviewport].
  split; [exact Hcreated|].
  apply (proj1 (proj2 (Hviewport 0%Q 0%Q 50%Q 50%Q Sample.state))).
  vm_compute. repeat split; congruence.
Defined.

(** * Further properties of the code *)

(** ** Options and construction *)

(** X1. Resolving options that are already resolved changes nothing:
    [__setOptions] applied to its own result gives that result. *)
Theorem setOptions_idempotent (userOptions : Object) :
  Options.__setOptions (Options.__setOptions userOptions)
  = Options.__setOptions userOptions.
Proof.
  apply map_eq. intros k. unfold Options.__setOptions.
  rewrite !spread2_lookup, !getDefaultOptionsForVersion_const.
  destruct (userOptions !! k) as [v|]; [done|].
  by destruct (Options.defaultOptions !! k).
Qed.

Lemma truthy_get_prop {E} (host : Host E) (o : Value) (p : string) (s : State E) :
  truthy o = true -> exists v, get_prop host o p s = (Ok v, s).
Proof.
  intros Ho. unfold get_prop.
  destruct o as [| | | | |[]]; try discriminate; eauto.
Qed.

Lemma instanceof_pure {E} (host : Host E) (v : Value) (C : string) (s : State E) :
  exists b, instanceof host v C s = (Ok b, s).
Proof. unfold instanceof. destruct v as [| | | | |[]]; eauto. Qed.

(** X2. Whatever the user passes as [initialModule], the manager the
    constructor builds never has [undefined] or [null] in
    [__initialModule]: it has the user's value when that is truthy, of
    whatever type, and the empty object otherwise.  So reading [print],
    [printErr] or [onAbort] of it never throws, and on a manager fresh from
    the constructor, without a console element, the configuration for the
    factory is always built, without any call to the host. *)
Theorem constructor_initialModule_never_nullish {E} (host : Host E)
    (moduleFactory componentElement canvasElement consoleElement : Value)
    (userOptions : Object) :
  let manager :=
    ModuleManager.constructor moduleFactory componentElement canvasElement
      consoleElement userOptions in
  __initialModule manager
    = (if truthy (prop userOptions "initialModule")
       then prop userOptions "initialModule"
       else VRef EmptyObject)
  /\ __initialModule manager <> VUndefined
  /\ __initialModule manager <> VNull
  /\ (forall (p : string) (s : State E),
        exists v, get_prop host (__initialModule manager) p s = (Ok v, s))
  /\ (truthy consoleElement = false ->
      forall (e : E) (calls : list Call),
        let s := {| this := manager; env := e; trace := calls |} in
        exists config, ModuleManager.moduleConfig host s = (Ok config, s)).
Proof.
  intros manager.
  assert (Htruthy : truthy (__initialModule manager) = true).
  { unfold manager. simpl.
    by destruct (truthy (prop userOptions "initialModule")) eqn:Hu. }
  assert (Hread : forall (p : string) (s : State E),
            exists v, get_prop host (__initialModule manager) p s = (Ok v, s)).
  { intros p s. by apply truthy_get_prop. }
  split; [done|]. split; [by intros Hu; rewrite Hu in Htruthy|].
  split; [by intros Hn; rewrite Hn in Htruthy|]. split; [done|].
  intros Hconsole e calls s.
  unfold ModuleManager.moduleConfig, Manager.__getLocateFile,
    ModuleManager._getAbortHandler, Manager.__getPrintHandler,
    Manager.__getPrintErrHandler, bind, get_this, ret.
  change (this s) with manager.
  destruct (Hread "print" s) as [print ->].
  destruct (instanceof_pure host print "Function" s) as [b ->].
  change (__consoleElement manager) with consoleElement. rewrite Hconsole.
  cbv beta iota. change (this s) with manager.
  destruct (Hread "printErr" s) as [printErr ->].
  destruct (instanceof_pure host printErr "Function" s) as [b' ->].
  eauto.
Qed.

(** A number passed as [initialModule] is kept as it is; the configuration
    is built all the same. *)
Lemma constructor_initialModule_never_nullish_witness :
  let userOptions : Object := {[ "initialModule" := VNum 5 ]} in
  let manager :=
    ModuleManager.constructor Sample.moduleFactory Sample.componentElement
      Sample.canvasElement VUndefined userOptions in
  __initialModule manager = VNum 5
  /\ exists config,
       ModuleManager.moduleConfig Sample.host
         {| this := manager; env := tt; trace := [] |}
       = (Ok config, {| this := manager; env := tt; trace := [] |}).
Proof.
  intros userOptions manager.
  pose proof (constructor_initialModule_never_nullish Sample.host
                Sample.moduleFactory Sample.componentElement
                Sample.canvasElement VUndefined userOptions)
    as (Hfield & _ & _ & _ & Hconfig).
  split; [exact Hfield|]. exact (Hconfig eq_refl tt []).
Defined.

(** ** Locating the binary *)

(** X3. [__isAbsoluteUrl] never throws: it answers [true] when [new URL]
    accepts the value and [false] when it throws.  The function
    [__getLocateFile] returns never throws either: without a [wasmPath] it
    answers [scriptDirectory + path] and does not consult [URL] at all; with
    one that [URL] accepts it answers the [wasmPath] itself; with any other
    it answers [scriptDirectory + wasmPath]. *)
Theorem locateFile_never_throws {E} (new_URL : Value -> M E Value)
    (plus : Value -> Value -> Value)
    (wasmPath path scriptDirectory : Value) (s : State E) :
  fst (LocateFile.__isAbsoluteUrl new_URL wasmPath s)
    = Ok (match fst (new_URL wasmPath s) with Ok _ => true | Throw _ => false end)
  /\ (truthy wasmPath = false ->
        LocateFile.locateFile new_URL plus wasmPath path scriptDirectory s
        = (Ok (plus scriptDirectory path), s))
  /\ (truthy wasmPath = true ->
        fst (LocateFile.locateFile new_URL plus wasmPath path scriptDirectory s)
        = Ok (match fst (new_URL wasmPath s) with
              | Ok _ => wasmPath
              | Throw _ => plus scriptDirectory wasmPath
              end)).
Proof.
  split; [|split].
  - unfold LocateFile.__isAbsoluteUrl, try_catch, bind.
    by destruct (new_URL wasmPath s) as [[v|e] s'].
  - intros Hfalsy. unfold LocateFile.locateFile. by rewrite Hfalsy.
  - intros Htruthy. unfold LocateFile.locateFile. rewrite Htruthy. simpl.
    unfold LocateFile.__isAbsoluteUrl, try_catch, bind.
    by destruct (new_URL wasmPath s) as [[v|e] s'].
Qed.

(** A relative [wasmPath] is looked up next to the script. *)
Lemma locateFile_never_throws_witness :
  fst (LocateFile.locateFile Demo.new_URL Demo.plus (VStr "bin/app.wasm")
         (VStr "app.wasm") (VStr "/static/") Sample.state)
  = Ok (VStr "/static/bin/app.wasm").
Proof.
  apply (proj2 (proj2 (locateFile_never_throws Demo.new_URL Demo.plus
           (VStr "bin/app.wasm") (VStr "app.wasm") (VStr "/static/")
           Sample.state)) eq_refl).
Defined.

(** ** What the patches do to an event handler *)

(** X4. Whatever the handler and the options, the three patches never
    touch the event type or any other property of the [eventHandler]; they
    change the target only of a key handler on the window, with
    [captureFocusOnComponent] on, and then to the component element; and
    the handler function afterwards is the original one or a single wrapper
    around it, never a wrapper around a wrapper the same call made. *)
Theorem patchEventHandler_frame (self : ManagerObject) (eventHandler : EventHandler) :
  let patched := ModuleManager.patchEventHandler self eventHandler in
  let original := handlerFunc eventHandler in
  eventTypeString patched = eventTypeString eventHandler
  /\ otherProps patched = otherProps eventHandler
  /\ (target patched = target eventHandler
      \/ (ModuleManager.key_kind eventHandler = true
          /\ truthy (prop (__options self) "captureFocusOnComponent") = true
          /\ target patched = __componentElement self))
  /\ (handlerFunc patched = original
      \/ handlerFunc patched = KeyWrapper original
      \/ handlerFunc patched
         = ResizeWrapper (__options self) (__canvasElement self) original
      \/ handlerFunc patched
         = FullscreenchangeWrapper (__canvasElement self) original).
Proof.
  intros patched original. unfold patched, original.
  unfold ModuleManager.patchEventHandler, ModuleManager._patchKeyEventHandler,
    ModuleManager._patchResizeEventHandler,
    ModuleManager._patchFullscreenchangedEventHandler,
    ModuleManager.key_kind, strict_ne.
  destruct (strict_eq (target eventHandler) window) eqn:Hw,
           (ModuleManager.startsWith (eventTypeString eventHandler) "key") eqn:Hk,
           (String.eqb (eventTypeString eventHandler) "resize") eqn:Hr,
           (strict_eq (target eventHandler) document) eqn:Hd,
           (ModuleManager.endsWith (eventTypeString eventHandler)
              "fullscreenchange") eqn:Hf,
           (truthy (prop (__options self) "captureFocusOnComponent")) eqn:Hc,
           (truthy (prop (__options self) "captureTabKey")) eqn:Ht,
           (truthy (prop (__options self) "resizeCanvasOnFullscreenChange")) eqn:Hfs;
    repeat (simpl; rewrite ?Hw, ?Hk, ?Hr, ?Hd, ?Hf, ?Hc, ?Ht, ?Hfs);
    repeat split; auto 10.
Qed.

Lemma patchEventHandler_fullscreenchange (self : ManagerObject)
    (eventHandler : EventHandler) :
  ModuleManager.fullscreenchange_kind eventHandler = true ->
  ModuleManager.patchEventHandler self eventHandler
  = if truthy (prop (__options self) "resizeCanvasOnFullscreenChange")
    then ModuleManager.set_handlerFunc
           (FullscreenchangeWrapper (__canvasElement self)
              (handlerFunc eventHandler))
           eventHandler
    else eventHandler.
Proof.
  unfold ModuleManager.fullscreenchange_kind. intros [Hd Hf]%andb_true_iff.
  assert (Hw : strict_eq (target eventHandler) window = false).
  { destruct (target eventHandler) as [| | | | |[]]; try done. }
  unfold ModuleManager.patchEventHandler, ModuleManager._patchKeyEventHandler,
    ModuleManager._patchResizeEventHandler,
    ModuleManager._patchFullscreenchangedEventHandler, strict_ne.
  destruct (truthy (prop (__options self) "resizeCanvasOnFullscreenChange")) eqn:Hfs;
    repeat (simpl; rewrite ?Hw, ?Hd, ?Hf, ?Hfs); reflexivity.
Qed.

(** X5. For a handler the module registers on the document for an event
    type that ends in [fullscreenchange]: with
    [resizeCanvasOnFullscreenChange] off the handler is registered as it
    came.  With the toggle on, the handler function put in its place runs
    the original handler first, on every event: when the original is a
    function [f] of the module, [f(evt)] is the first call made and the
    only call of a function value.  It then fixes the canvas size and
    viewport only when the document has left fullscreen and the event's
    target or source element is the canvas: while an element is still
    fullscreen, or for an event of another element, it does nothing
    more. *)
Theorem fullscreenchange_handler_fixes_on_exit {E} (host : Host E)
    (self : ManagerObject) (eventHandler : EventHandler) :
  target eventHandler = document ->
  ModuleManager.endsWith (eventTypeString eventHandler) "fullscreenchange" = true ->
  let original := handlerFunc eventHandler in
  let patched := handlerFunc (ModuleManager.patchEventHandler self eventHandler) in
  let canvasElement := __canvasElement self in
  (truthy (prop (__options self) "resizeCanvasOnFullscreenChange") = false ->
     ModuleManager.patchEventHandler self eventHandler = eventHandler)
  /\ (truthy (prop (__options self) "resizeCanvasOnFullscreenChange") = true ->
      forall (evt : Event) (s : State E),
        ModuleManager.run_handler host patched evt s
        = (ModuleManager.run_handler host original evt
           >> ModuleManager.fullscreenchangeFixups host canvasElement evt) s
        /\ (forall f,
              original = Predefined f ->
              exists rest,
                calls_made (ModuleManager.run_handler host patched evt) s
                = Apply f VUndefined [AEvent evt] :: rest
                /\ forallb (fun c => negb (is_apply c)) rest = true)
        /\ (truthy (host_read host (env s) document "fullscreenElement") = true
            \/ (strict_eq (evt_target evt) canvasElement = false
                /\ strict_eq (evt_srcElement evt) canvasElement = false) ->
            ModuleManager.fullscreenchangeFixups host canvasElement evt s
            = (Ok VUndefined, s))
        /\ (truthy (host_read host (env s) document "fullscreenElement") = false ->
            strict_eq (evt_target evt) canvasElement = true
            \/ strict_eq (evt_srcElement evt) canvasElement = true ->
            ModuleManager.fullscreenchangeFixups host canvasElement evt s
            = (ModuleManager._fixCanvasSizing host
               >> ModuleManager._fixCanvasViewport host >> ret VUndefined) s)).
Proof.
  intros Htarget Htype original patched canvasElement.
  assert (Hkind : ModuleManager.fullscreenchange_kind eventHandler = true).
  { unfold ModuleManager.fullscreenchange_kind.
    by rewrite Htarget, strict_eq_refl, Htype. }
  unfold patched.
  rewrite (patchEventHandler_fullscreenchange self eventHandler Hkind).
  split.
  - by intros ->.
  - intros ->. intros evt s. split; [reflexivity|]. split; [|split].
    + intros f Hf. simpl. fold original canvasElement. rewrite Hf.
      apply applied_first. apply nothing_fullscreenchangeFixups.
    + intros Hquiet. unfold ModuleManager.fullscreenchangeFixups, bind, get_prop.
      simpl.
      destruct Hquiet as [-> | [-> ->]]; [done|].
      by destruct (truthy _).
    + intros Hleft Hcanvas.
      unfold ModuleManager.fullscreenchangeFixups.
      unfold bind at 1. unfold get_prop. simpl. rewrite Hleft. simpl.
      by destruct Hcanvas as [-> | ->];
        [|destruct (strict_eq (evt_target evt) canvasElement)].
Qed.

(** A [webkitfullscreenchange] handler under the default options: the
    module's handler [Obj 33] is called first. *)
Lemma fullscreenchange_handler_fixes_on_exit_witness :
  exists rest,
    calls_made
      (ModuleManager.run_handler Sample.host
         (handlerFunc (ModuleManager.patchEventHandler Sample.manager
                         Demo.fullscreenchangeHandler))
         Sample.windowResize) Sample.state
    = Apply (VRef (Obj 33)) VUndefined [AEvent Sample.windowResize] :: rest
    /\ forallb (fun c => negb (is_apply c)) rest = true.
Proof.
  apply (proj1 (proj2 (proj2 (fullscreenchange_handler_fixes_on_exit Sample.host
                  Sample.manager Demo.fullscreenchangeHandler eq_refl eq_refl)
                  eq_refl Sample.windowResize Sample.state))
           (VRef (Obj 33)) eq_refl).
Defined.

(** X6. A wrapper never swallows an exception of the handler it forwards
    to, and never runs its fix-ups after one: whenever a wrapper forwards
    an event and the handler underneath throws, the wrapper ends with that
    same exception in the state the handler left. *)
Theorem wrapper_propagates_exception {E} (host : Host E)
    (handlerFunc predefinedHandlerFunc : HandlerFunc) (evt : Event)
    (s s' : State E) (e : Exn) :
  forwards_to handlerFunc evt = Some predefinedHandlerFunc ->
  ModuleManager.run_handler host predefinedHandlerFunc evt s = (Throw e, s') ->
  ModuleManager.run_handler host handlerFunc evt s = (Throw e, s').
Proof.
  intros Hforward Hthrow.
  destruct handlerFunc as [f|pre|options canvasElement pre|canvasElement pre];
    simpl in *.
  - discriminate.
  - destruct (strict_ne (evt_keyCode evt) (VNum 9)); [|discriminate].
    injection Hforward as ->. unfold bind. by rewrite Hthrow.
  - destruct (truthy (prop options "resizeCanvasOnElementSizing")).
    + destruct (strict_eq (evt_relatedTarget evt) canvasElement); [|discriminate].
      injection Hforward as ->. unfold bind. by rewrite Hthrow.
    + injection Hforward as ->. unfold bind. by rewrite Hthrow.
  - injection Hforward as ->. unfold bind. by rewrite Hthrow.
Qed.

(** A key wrapper around the throwing handler of the sample, on a key
    other than TAB. *)
Lemma wrapper_propagates_exception_witness :
  ModuleManager.run_handler Demo.host
    (KeyWrapper (Predefined (VRef (Obj 34)))) (Sample.keyEvent 13) Sample.state
  = (Throw (Error "handler failed"),
     {| this := Sample.manager; env := tt;
        trace := [Apply (VRef (Obj 34)) VUndefined [AEvent (Sample.keyEvent 13)]] |}).
Proof.
  apply (wrapper_propagates_exception Demo.host
           (KeyWrapper (Predefined (VRef (Obj 34))))
           (Predefined (VRef (Obj 34))) (Sample.keyEvent 13) Sample.state);
    reflexivity.
Defined.

(** ** The resize hook and the resize handler together *)

(** X7. With [resizeCanvasOnElementSizing] on, [onResizeCanvas] called
    with a resize entry whose target is an [EventTarget] makes one call,
    [window.dispatchEvent], of an event whose [relatedTarget] is that
    target.  On that very event the handler function the adapter put
    around a function [f] of the module registered for the window's
    [resize] calls [f(evt)] first, and no other function value, when the
    entry's target is the canvas element; and calls no function value at
    all when it is another element. *)
Theorem resize_hook_reaches_module_handler {E} (host : Host E)
    (eventHandler : EventHandler) (resizeEntry relatedTarget f : Value)
    (s : State E) :
  target eventHandler = window ->
  eventTypeString eventHandler = "resize" ->
  handlerFunc eventHandler = Predefined f ->
  truthy (prop (__options (this s)) "resizeCanvasOnElementSizing") = true ->
  get_prop host resizeEntry "target" s = (Ok relatedTarget, s) ->
  instanceof host relatedTarget "EventTarget" s = (Ok true, s) ->
  let evt := resize_event relatedTarget in
  let patched :=
    handlerFunc (ModuleManager.patchEventHandler (this s) eventHandler) in
  calls_made (ModuleManager.onResizeCanvas host [resizeEntry]) s
    = [Invoke window "dispatchEvent" [AEvent evt]]
  /\ (relatedTarget = __canvasElement (this s) ->
      forall s',
        exists rest,
          calls_made (ModuleManager.run_handler host patched evt) s'
          = Apply f VUndefined [AEvent evt] :: rest
          /\ forallb (fun c => negb (is_apply c)) rest = true)
  /\ (strict_eq relatedTarget (__canvasElement (this s)) = false ->
      forall s',
        forallb (fun c => negb (is_apply c))
          (calls_made (ModuleManager.run_handler host patched evt) s') = true).
Proof.
  intros Htarget Htype Hf Hon Hentry Hevent evt patched.
  assert (Hkind : ModuleManager.resize_kind eventHandler = true).
  { unfold ModuleManager.resize_kind.
    by rewrite Htarget, strict_eq_refl, Htype. }
  assert (Hpatched : patched
            = ResizeWrapper (__options (this s)) (__canvasElement (this s))
                (Predefined f)).
  { unfold patched.
    by rewrite (patchEventHandler_resize _ eventHandler Hkind), <- Hf. }
  split; [|split].
  - apply calls_made_spec.
    unfold ModuleManager.onResizeCanvas, ModuleManager._handleResizeCanvas.
    unfold bind at 1. unfold get_this at 1. rewrite Hon.
    unfold bind at 1. unfold bind at 1. cbn [nth]. rewrite Hentry.
    assert (Hnew : ModuleManager.new_FocusEvent host "resize" relatedTarget s
                   = (Ok evt, s)).
    { unfold ModuleManager.new_FocusEvent.
      destruct relatedTarget as [| | | | |]; try (by vm_compute in Hevent);
        unfold bind; by rewrite Hevent. }
    unfold bind at 1. rewrite Hnew.
    unfold bind, invoke, window, hostcall.
    by destruct (host_call host _ (env s)) as [[v|e] e'].
  - intros Hcanvas s'. rewrite Hpatched.
    assert (Hrun : ModuleManager.run_handler host
                     (ResizeWrapper (__options (this s)) (__canvasElement (this s))
                        (Predefined f)) evt
              = (ModuleManager.run_handler host (Predefined f) evt
                 >> ModuleManager.resizeFixups host (__options (this s))
                      (__canvasElement (this s)))).
    { simpl. rewrite Hon. unfold evt. simpl. by rewrite Hcanvas, strict_eq_refl. }
    rewrite Hrun. apply applied_first. apply nothing_resizeFixups.
  - intros Hother s'. rewrite Hpatched.
    assert (Hrun : ModuleManager.run_handler host
                     (ResizeWrapper (__options (this s)) (__canvasElement (this s))
                        (Predefined f)) evt
              = ModuleManager.resizeFixups host (__options (this s))
                  (__canvasElement (this s))).
    { simpl. rewrite Hon. unfold evt. simpl. by rewrite Hother. }
    rewrite Hrun. apply applies_nothing_calls. apply nothing_resizeFixups.
Qed.

(** The entry of the demo host, whose target is the canvas: the event is
    dispatched, and the sample resize handler passes it to the module's
    handler [Obj 31]. *)
Lemma resize_hook_reaches_module_handler_witness :
  calls_made (ModuleManager.onResizeCanvas Demo.host [Demo.resizeEntry])
    Sample.state
  = [Invoke window "dispatchEvent" [AEvent Sample.canvasResize]]
  /\ exists rest,
       calls_made
         (ModuleManager.run_handler Demo.host
            (handlerFunc (ModuleManager.patchEventHandler Sample.manager
                            Sample.resizeHandler))
            Sample.canvasResize) Sample.state
       = Apply (VRef (Obj 31)) VUndefined [AEvent Sample.canvasResize] :: rest
       /\ forallb (fun c => negb (is_apply c)) rest = true.
Proof.
  pose proof (resize_hook_reaches_module_handler Demo.host
                Sample.resizeHandler Demo.resizeEntry Sample.canvasElement
                (VRef (Obj 31)) Sample.state
                eq_refl eq_refl eq_refl eq_refl eq_refl eq_refl)
    as (Hhook & Hcanvas & _).
  split; [exact Hhook|]. exact (Hcanvas eq_refl Sample.state).
Defined.

(** ** Disposal of contexts, entry by entry *)

(** X8. What the disposal of one entry of the contexts table does.  A
    stale entry ([null] or [undefined]) is skipped without any call to the
    host: [deleteContext] is not called for it.  For a live context, when
    [getExtension] throws nothing more is called, and when the extension's
    [loseContext] throws [deleteContext] is not called either: the entry is
    deleted only when neither failed. *)
Theorem disposeContext_cases {E} (host : Host E)
    (module GL contexts entry : Value) (key : string) (s : State E) :
  get_prop host module "GL" s = (Ok GL, s) ->
  get_prop host GL "contexts" s = (Ok contexts, s) ->
  get_prop host contexts key s = (Ok entry, s) ->
  let getExtension := fun GLctx =>
    Invoke GLctx "getExtension" [AVal (VStr "WEBGL_lose_context")] in
  (entry = VNull \/ entry = VUndefined ->
     Manager.disposeContext host module key s = (Ok VUndefined, s))
  /\ (forall GLctx e e1,
        get_prop host entry "GLctx" s = (Ok GLctx, s) ->
        is_object GLctx = true ->
        host_call host (getExtension GLctx) (env s) = (Throw e, e1) ->
        calls_made (Manager.disposeContext host module key) s
        = [getExtension GLctx])
  /\ (forall GLctx extension e e1 e2,
        get_prop host entry "GLctx" s = (Ok GLctx, s) ->
        is_object GLctx = true ->
        host_call host (getExtension GLctx) (env s) = (Ok extension, e1) ->
        truthy extension = true ->
        is_object extension = true ->
        host_call host (Invoke extension "loseContext" []) e1 = (Throw e, e2) ->
        calls_made (Manager.disposeContext host module key) s
        = [getExtension GLctx; Invoke extension "loseContext" []]).
Proof.
  intros HGL Hcontexts Hentry getExtension.
  split; [|split].
  - intros Hstale. unfold Manager.disposeContext, try_catch, bind.
    rewrite HGL, Hcontexts, Hentry.
    by destruct Hstale as [-> | ->].
  - intros GLctx e e1 HGLctx Hobj Hcall. apply calls_made_spec.
    unfold Manager.disposeContext, try_catch, bind.
    rewrite HGL, Hcontexts, Hentry, HGLctx.
    destruct GLctx as [| | | | |[]]; try discriminate; simpl;
      unfold hostcall, getExtension in *; by rewrite Hcall.
  - intros GLctx extension e e1 e2 HGLctx Hobj Hcall Htruthy Hext Hlose.
    apply calls_made_spec.
    unfold Manager.disposeContext, try_catch, bind.
    rewrite HGL, Hcontexts, Hentry, HGLctx.
    unfold getExtension in *.
    destruct GLctx as [| | | | |[]]; try discriminate; simpl;
      unfold hostcall; rewrite Hcall; simpl; rewrite Htruthy;
      (destruct extension as [| | | | |[]]; try discriminate; simpl;
       unfold hostcall; simpl; rewrite Hlose; simpl;
       by rewrite <- app_assoc).
Qed.

(** The stale entry ["1"] of the sample table. *)
Lemma disposeContext_cases_witness :
  Manager.disposeContext Sample.host Sample.module "1" Sample.state
  = (Ok VUndefined, Sample.state).
Proof.
  apply (proj1 (disposeContext_cases Sample.host Sample.module (VRef (Obj 1))
                  (VRef (Obj 2)) VNull "1" Sample.state
                  eq_refl eq_refl eq_refl)).
  by left.
Defined.

(** ** The abort handler *)

Lemma disposeGlContexts_returns {E} (host : Host E) (module GL : Value)
    (s : State E) :
  get_prop host module "GL" s = (Ok GL, s) ->
  (truthy GL = false
   \/ exists contexts keys,
        get_prop host GL "contexts" s = (Ok contexts, s)
        /\ object_keys host contexts s = (Ok keys, s)) ->
  fst (Manager.__disposeGlContexts host module s) = Ok VUndefined.
Proof.
  intros HGL Htable. unfold Manager.__disposeGlContexts, bind. rewrite HGL.
  destruct (truthy GL) eqn:Htruthy; simpl; [|done].
  destruct Htable as [|(contexts & keys & Hcontexts & Hkeys)]; [done|].
  rewrite HGL, Hcontexts, Hkeys.
  rewrite forEach_total; [done|].
  intros key s'. apply disposeContext_never_throws.
Qed.

(** X9. The abort handler reaches the user's [onAbort] whatever happened
    to the contexts: with [disposeCanvasOnAbort] off, or with a module whose
    [GL] is falsy or has a contexts table, the disposal ends normally.
    Then, when [initialModule.onAbort] is a function, the handler's last
    call is that function on the abort message; the handler returns
    [undefined] when it returns and throws what it throws.  When
    [initialModule.onAbort] is not a function, as with the empty object the
    constructor supplies by default, the handler makes no further call and
    returns [undefined]. *)
Theorem abortHandler_reaches_user_callback {E} (host : Host E)
    (options : Object) (initialModule module what GL : Value) (s : State E) :
  truthy initialModule = true ->
  get_prop host module "GL" s = (Ok GL, s) ->
  (truthy (prop options "disposeCanvasOnAbort") = false
   \/ truthy GL = false
   \/ exists contexts keys,
        get_prop host GL "contexts" s = (Ok contexts, s)
        /\ object_keys host contexts s = (Ok keys, s)) ->
  let disposal :=
    if truthy (prop options "disposeCanvasOnAbort")
    then Manager.__disposeGlContexts host module
    else ret VUndefined in
  let disposed := snd (disposal s) in
  let callback := Invoke initialModule "onAbort" [AVal what] in
  let handler := ModuleManager.abortHandler host options initialModule module what in
  fst (disposal s) = Ok VUndefined
  /\ forall onAbort isFunction,
       get_prop host initialModule "onAbort" disposed = (Ok onAbort, disposed) ->
       instanceof host onAbort "Function" disposed = (Ok isFunction, disposed) ->
       (isFunction = true ->
          trace (snd (handler s)) = (trace disposed ++ [callback])%list
          /\ env (snd (handler s)) = snd (host_call host callback (env disposed))
          /\ fst (handler s)
             = match fst (host_call host callback (env disposed)) with
               | Ok _ => Ok VUndefined
               | Throw e => Throw e
               end)
       /\ (isFunction = false -> handler s = (Ok VUndefined, disposed)).
Proof.
  intros Hobject HGL Hprecondition disposal disposed callback handler.
  assert (Hdisposal : fst (disposal s) = Ok VUndefined).
  { unfold disposal.
    destruct (truthy (prop options "disposeCanvasOnAbort")); [|done].
    apply (disposeGlContexts_returns host module GL s HGL).
    destruct Hprecondition as [|[|]]; [done| |]; auto. }
  split; [done|].
  intros onAbort isFunction Hread Hinstance.
  assert (Hhandler : handler s
            = (if isFunction
               then invoke host initialModule "onAbort" [AVal what]
                    >> ret VUndefined
               else ret VUndefined) disposed).
  { unfold handler, ModuleManager.abortHandler. fold disposal.
    unfold bind at 1. unfold disposed in *.
    destruct (disposal s) as [[v|e] s1]; simpl in *; [|discriminate].
    unfold bind at 1. rewrite Hread. unfold bind at 1. by rewrite Hinstance. }
  split.
  - intros ->.
    assert (Hinvoke : invoke host initialModule "onAbort" [AVal what]
                      = hostcall host callback).
    { destruct initialModule as [| | | | |[]]; try done.
      by vm_compute in Hread, Hinstance; injection Hread as <-. }
    rewrite Hhandler, Hinvoke. unfold bind, hostcall.
    by destruct (host_call host callback (env disposed)) as [[v|e] e'].
  - by intros ->.
Qed.

(** The demo module [Obj 41] has an [onAbort], the function [Obj 42]: with
    the sample contexts table, it is called after the four calls of the
    disposal. *)
Lemma abortHandler_reaches_user_callback_witness :
  trace (snd (ModuleManager.abortHandler Demo.host (__options Sample.manager)
                Demo.initialModule Sample.module (VStr "stop") Sample.state))
  = [ Invoke (VRef (Obj 4)) "getExtension" [AVal (VStr "WEBGL_lose_context")];
      Invoke (VRef (Obj 5)) "loseContext" [];
      Invoke (VRef (Obj 9)) "getExtension" [AVal (VStr "WEBGL_lose_context")];
      Invoke (VRef (Obj 1)) "deleteContext" [AVal (VStr "3")];
      Invoke Demo.initialModule "onAbort" [AVal (VStr "stop")] ].
Proof.
  pose proof (proj2 (abortHandler_reaches_user_callback Demo.host
                (__options Sample.manager) Demo.initialModule Sample.module
                (VStr "stop") (VRef (Obj 1)) Sample.state eq_refl eq_refl
                (or_intror (or_intror
                   (ex_intro _ (VRef (Obj 2))
                      (ex_intro _ ["1"; "2"; "3"]
                         (conj eq_refl eq_refl))))))
                (VRef (Obj 42)) true eq_refl eq_refl) as [Hcalled _].
  rewrite (proj1 (Hcalled eq_refl)). reflexivity.
Defined.

(** ** Patching the module *)

(** X10. [_patchEventHandlers] reads no option: it always replaces
    [JSEvents.registerOrRemoveHandler], by one assignment, with a closure
    around the function that was there.  On a module without [JSEvents] it
    throws a [TypeError] and changes nothing. *)
Theorem patchEventHandlers_unconditional {E} (host : Host E)
    (JSEvents : Value) (s : State E) :
  get_prop host (_moduleInstance (this s)) "JSEvents" s = (Ok JSEvents, s) ->
  (JSEvents = VUndefined \/ JSEvents = VNull ->
     ModuleManager._patchEventHandlers host s = (Throw TypeError, s))
  /\ (truthy JSEvents = true ->
      forall predefinedFunction,
        get_prop host JSEvents "registerOrRemoveHandler" s
          = (Ok predefinedFunction, s) ->
        calls_made (ModuleManager._patchEventHandlers host) s
        = [Assign JSEvents "registerOrRemoveHandler"
             (AClosure (PatchedRegisterOrRemoveHandler predefinedFunction))]).
Proof.
  intros HJSEvents. split.
  - intros Hmissing. unfold ModuleManager._patchEventHandlers, bind, get_this.
    rewrite HJSEvents. by destruct Hmissing as [-> | ->].
  - intros Hobject predefinedFunction Hpredefined. apply calls_made_spec.
    unfold ModuleManager._patchEventHandlers, bind, get_this.
    rewrite HJSEvents, Hpredefined.
    destruct JSEvents as [| | | | |]; try discriminate; simpl;
      unfold hostcall; by destruct (host_call host _ (env s)) as [[v|e] e'].
Qed.

(** On the sample module, whose [JSEvents] is [Obj 7]. *)
Lemma patchEventHandlers_unconditional_witness :
  calls_made (ModuleManager._patchEventHandlers Sample.host) Sample.state
  = [Assign (VRef (Obj 7)) "registerOrRemoveHandler"
       (AClosure (PatchedRegisterOrRemoveHandler (VRef (Obj 22))))].
Proof.
  apply (proj2 (patchEventHandlers_unconditional Sample.host (VRef (Obj 7))
                  Sample.state eq_refl) eq_refl (VRef (Obj 22)) eq_refl).
Defined.

(** X11. With [redirectCanvasRequests], [captureFocusOnComponent] and
    [adjustViewportByDevicePixelRatio] all off, [_patchModule] does the
    patch of the event registration and nothing else: that patch cannot be
    turned off. *)
Theorem patchModule_all_toggles_off {E} (host : Host E) (s : State E) :
  truthy (prop (__options (this s)) "redirectCanvasRequests") = false ->
  truthy (prop (__options (this s)) "captureFocusOnComponent") = false ->
  truthy (prop (__options (this s)) "adjustViewportByDevicePixelRatio") = false ->
  ModuleManager._patchModule host s = ModuleManager._patchEventHandlers host s.
Proof.
  intros Hredirect Hfocus Hviewport.
  unfold ModuleManager._patchModule, ModuleManager._patchCanvasQueries,
    ModuleManager._attachFocusInvokers, ModuleManager._patchGlViewport.
  unfold bind at 1. unfold bind at 1. unfold get_this at 1.
  rewrite Hredirect. simpl.
  unfold bind at 1. unfold bind at 1. unfold get_this at 1.
  rewrite Hfocus. simpl.
  unfold bind at 1. unfold bind at 1. unfold get_this at 1.
  rewrite Hviewport. reflexivity.
Qed.

(** A manager built with the three toggles off, on the sample module. *)
Lemma patchModule_all_toggles_off_witness :
  let userOptions : Object :=
    <["redirectCanvasRequests" := VBool false]>
    (<["captureFocusOnComponent" := VBool false]>
    (<["adjustViewportByDevicePixelRatio" := VBool false]> ∅)) in
  let s : State unit :=
    {| this := ModuleManager.set_moduleInstance Sample.module
                 (ModuleManager.constructor Sample.moduleFactory
                    Sample.componentElement Sample.canvasElement
                    Sample.consoleElement userOptions);
       env := tt; trace := [] |} in
  ModuleManager._patchModule Sample.host s
  = ModuleManager._patchEventHandlers Sample.host s.
Proof.
  intros userOptions s.
  apply (patchModule_all_toggles_off Sample.host s); by vm_compute.
Defined.

(** X12. The patched [GL.createContext] is transparent to its caller:
    when the original function throws, it throws the same in the same
    state; when the original returns a falsy handle, it returns that
    handle and does nothing else; and whenever it returns at all, what it
    returns is the handle the original returned. *)
Theorem patchedCreateContext_returns_handle {E} (host : Host E)
    (GL predefinedCreateContext : Value) (args : list Arg) (s : State E) :
  let original := apply host predefinedCreateContext GL args in
  let patched :=
    ModuleManager.patchedCreateContext host GL predefinedCreateContext args in
  (forall e s1, original s = (Throw e, s1) -> patched s = (Throw e, s1))
  /\ (forall handle s1,
        original s = (Ok handle, s1) ->
        (truthy handle = false -> patched s = (Ok handle, s1))
        /\ (forall v s2, patched s = (Ok v, s2) -> v = handle)).
Proof.
  intros original patched. unfold patched, ModuleManager.patchedCreateContext.
  fold original. split.
  - intros e s1 Horiginal. unfold bind. by rewrite Horiginal.
  - intros handle s1 Horiginal.
    match goal with |- context [bind original ?k] =>
      assert (Hrun : bind original k s = k handle s1)
        by (unfold bind at 1; by rewrite Horiginal);
      rewrite Hrun; clear Hrun
    end.
    destruct (truthy handle); simpl.
    + split; [done|]. intros v s2. unfold bind, ret.
      repeat match goal with
        | |- context [match ?m ?st with _ => _ end] =>
            destruct (m st) as [[?|?] ?]
        | |- context [if ?b then _ else _] => destruct b
        end; simpl; congruence.
    + split; [done|]. intros v s2. unfold ret. congruence.
Qed.

(** On the sample host the original function returns [undefined], a falsy
    handle, and so does the patched one. *)
Lemma patchedCreateContext_returns_handle_witness :
  fst (ModuleManager.patchedCreateContext Sample.host (VRef (Obj 1))
         (VRef (Obj 21)) [] Sample.state)
  = Ok VUndefined.
Proof.
  rewrite (proj1 (proj2 (patchedCreateContext_returns_handle Sample.host
                    (VRef (Obj 1)) (VRef (Obj 21)) [] Sample.state)
                    VUndefined _ eq_refl) eq_refl).
  reflexivity.
Defined.

(** ** The manager object is written by initialization only *)

Section KeepsThis.

Context {E : Type} (host : Host E).

Lemma this_ret {A} (a : A) : keeps_this (ret (E := E) a).
Proof. by intros s. Qed.

Lemma this_throw {A} (e : Exn) : keeps_this (throw (E := E) (A := A) e).
Proof. by intros s. Qed.

Lemma this_bind {A B} (m : M E A) (k : A -> M E B) :
  keeps_this m -> (forall a, keeps_this (k a)) -> keeps_this (bind m k).
Proof.
  intros Hm Hk s. unfold bind. specialize (Hm s).
  destruct (m s) as [[a|e] s']; simpl in *; [|done].
  by rewrite Hk.
Qed.

Lemma this_try_catch {A} (body : M E A) (handler : Exn -> M E A) :
  keeps_this body -> (forall e, keeps_this (handler e)) ->
  keeps_this (try_catch body handler).
Proof.
  intros Hb Hh s. unfold try_catch. specialize (Hb s).
  destruct (body s) as [[a|e] s']; simpl in *; [done|].
  by rewrite Hh.
Qed.

Lemma this_get_this : keeps_this (get_this (E := E)).
Proof. by intros s. Qed.

Lemma this_get_prop (o : Value) (p : string) : keeps_this (get_prop host o p).
Proof. intros s. unfold get_prop. by destruct o as [| | | | |[]]. Qed.

Lemma this_object_keys (o : Value) : keeps_this (object_keys host o).
Proof. intros s. unfold object_keys. by destruct o as [| | | | |[]]. Qed.

Lemma this_instanceof (v : Value) (C : string) : keeps_this (instanceof host v C).
Proof. intros s. unfold instanceof. by destruct v as [| | | | |[]]. Qed.

Lemma this_hostcall (c : Call) : keeps_this (hostcall host c).
Proof. intros s. unfold hostcall. by destruct (host_call host c (env s)). Qed.

Lemma this_invoke (receiver : Value) (method : string) (args : list Arg) :
  keeps_this (invoke host receiver method args).
Proof.
  unfold invoke.
  destruct receiver as [| | | | |[]];
    first [apply this_throw | apply this_hostcall].
Qed.

Lemma this_assign (object : Value) (property : string) (v : Arg) :
  keeps_this (assign host object property v).
Proof.
  unfold assign. destruct object; first [apply this_throw | apply this_hostcall].
Qed.

Lemma this_forEach {A} (l : list A) (f : A -> M E Value) :
  (forall x, keeps_this (f x)) -> keeps_this (forEach l f).
Proof.
  intros Hf. induction l as [|x l IH]; simpl.
  - apply this_ret.
  - apply this_bind; [apply Hf | intros _; apply IH].
Qed.

Ltac this_step :=
  match goal with
  | |- keeps_this (bind _ _) => apply this_bind; [|intros ?]
  | |- keeps_this (try_catch _ _) => apply this_try_catch; [|intros ?]
  | |- keeps_this (ret _) => apply this_ret
  | |- keeps_this (throw _) => apply this_throw
  | |- keeps_this get_this => apply this_get_this
  | |- keeps_this (get_prop _ _ _) => apply this_get_prop
  | |- keeps_this (object_keys _ _) => apply this_object_keys
  | |- keeps_this (instanceof _ _ _) => apply this_instanceof
  | |- keeps_this (invoke _ _ _ _) => apply this_invoke
  | |- keeps_this (apply _ _ _ _) => apply this_hostcall
  | |- keeps_this (assign _ _ _ _) => apply this_assign
  | |- keeps_this (forEach _ _) => apply this_forEach; intros ?
  | |- keeps_this (if ?b then _ else _) => destruct b
  end.

Lemma this_fixCanvasSizing : keeps_this (ModuleManager._fixCanvasSizing host).
Proof. unfold ModuleManager._fixCanvasSizing. repeat this_step. Qed.

Lemma this_fixCanvasViewport : keeps_this (ModuleManager._fixCanvasViewport host).
Proof. unfold ModuleManager._fixCanvasViewport. repeat this_step. Qed.

Lemma this_run_handler (handlerFunc : HandlerFunc) (evt : Event) :
  keeps_this (ModuleManager.run_handler host handlerFunc evt).
Proof.
  induction handlerFunc as [f|pre IH|options canvasElement pre IH|canvasElement pre IH];
    simpl.
  - apply this_hostcall.
  - repeat this_step; apply IH.
  - apply this_bind; [repeat this_step; apply IH|]. intros _.
    unfold ModuleManager.resizeFixups. repeat this_step;
      first [apply this_fixCanvasSizing | apply this_fixCanvasViewport].
  - apply this_bind; [apply IH|]. intros _.
    unfold ModuleManager.fullscreenchangeFixups. repeat this_step;
      first [apply this_fixCanvasSizing | apply this_fixCanvasViewport].
Qed.

Lemma this_patchModule : keeps_this (ModuleManager._patchModule host).
Proof.
  unfold ModuleManager._patchModule, ModuleManager._patchCanvasQueries,
    ModuleManager._attachFocusInvokers, ModuleManager._patchGlViewport,
    ModuleManager._patchEventHandlers.
  repeat this_step.
Qed.

Lemma this_moduleConfig : keeps_this (ModuleManager.moduleConfig host).
Proof.
  unfold ModuleManager.moduleConfig, Manager.__getLocateFile,
    ModuleManager._getAbortHandler, Manager.__getPrintHandler,
    Manager.__getPrintErrHandler.
  repeat this_step.
Qed.

Lemma this_new_FocusEvent (type : string) (relatedTarget : Value) :
  keeps_this (ModuleManager.new_FocusEvent host type relatedTarget).
Proof.
  unfold ModuleManager.new_FocusEvent.
  destruct relatedTarget; repeat this_step.
Qed.

Lemma this_run (op : ModuleManager.Operation) :
  op <> ModuleManager.op_initializeModule ->
  keeps_this (ModuleManager.run host op).
Proof.
  intros Hop. destruct op; simpl; try done.
  - unfold ModuleManager.callMain. repeat this_step.
  - unfold ModuleManager.abort. repeat this_step.
  - unfold ModuleManager.pauseMainLoop. repeat this_step.
  - unfold ModuleManager.resumeMainLoop. repeat this_step.
  - unfold ModuleManager.requestFullscreen. repeat this_step.
  - unfold ModuleManager.exitFullscreen. repeat this_step.
  - unfold ModuleManager.onResizeCanvas, ModuleManager._handleResizeCanvas.
    repeat this_step; apply this_new_FocusEvent.
  - apply this_run_handler.
  - unfold ModuleManager.abortHandler, Manager.__disposeGlContexts,
      Manager.disposeContext. repeat this_step.
  - unfold ModuleManager.patchedRegisterOrRemoveHandler. repeat this_step.
  - unfold ModuleManager.patchedCreateContext. repeat this_step.
  - unfold ModuleManager.focusInvoker. repeat this_step.
Qed.

End KeepsThis.

(** X13. Once the manager is constructed, its fields are written in one
    place only, the assignment of [_moduleInstance] in [_initializeModule]:
    every other operation (the public methods, the installed handler
    functions, the abort handler, the patched registration and
    context-creation functions, the focus handler) leaves the whole
    manager object, every field of it, as it found it, whether it returns
    or throws. *)
Theorem operations_keep_manager_object {E} (host : Host E)
    (op : ModuleManager.Operation) (s : State E) :
  op <> ModuleManager.op_initializeModule ->
  this (snd (ModuleManager.run host op s)) = this s.
Proof. intros Hop. by apply this_run. Qed.

(** A throwing [abort] of the module leaves the manager as it was. *)
Lemma operations_keep_manager_object_witness :
  this (snd (ModuleManager.run Sample.host
               (ModuleManager.op_abort (VStr "stop")) Sample.state))
  = Sample.manager.
Proof.
  apply (operations_keep_manager_object Sample.host
           (ModuleManager.op_abort (VStr "stop")) Sample.state).
  discriminate.
Defined.

(** ** How initialization ends *)

(** X14. Once the configuration is built, [initialize] calls the factory.
    When the factory throws (or its promise is rejected), [initialize]
    ends with that same exception, the factory call is the last call made,
    nothing is patched and the manager has no module instance.  When the
    factory returns an instance, that instance is the manager's
    [_moduleInstance] from then on, also when patching it fails, and the
    manager [initialize] returns is the constructed one with that
    instance. *)
Theorem initialize_outcomes {E} (host : Host E)
    (moduleFactory componentElement canvasElement consoleElement : Value)
    (userOptions : Object) (config : ModuleConfig) (s s1 : State E) :
  let constructed :=
    ModuleManager.constructor moduleFactory componentElement canvasElement
      consoleElement userOptions in
  ModuleManager.moduleConfig host
    {| this := constructed; env := env s; trace := trace s |}
  = (Ok config, s1) ->
  let factoryCall := Apply moduleFactory (VRef Self) [AConfig config] in
  let result :=
    ModuleManager.initialize host moduleFactory componentElement canvasElement
      consoleElement userOptions s in
  (forall e e2,
     host_call host factoryCall (env s1) = (Throw e, e2) ->
     result = (Throw e,
               {| this := constructed; env := e2;
                  trace := (trace s1 ++ [factoryCall])%list |})
     /\ _moduleInstance constructed = VUndefined)
  /\ (forall instance e2,
        host_call host factoryCall (env s1) = (Ok instance, e2) ->
        this (snd result) = ModuleManager.set_moduleInstance instance constructed
        /\ (forall manager,
              fst result = Ok manager ->
              manager = ModuleManager.set_moduleInstance instance constructed
              /\ _moduleInstance manager = instance)).
Proof.
  intros constructed Hconfig factoryCall result.
  assert (Hthis : this s1 = constructed).
  { pose proof (this_moduleConfig host
                  {| this := constructed; env := env s; trace := trace s |}) as H.
    by rewrite Hconfig in H. }
  assert (Hresult : result
            = (let* _ := (let* instance := hostcall host factoryCall in
                          ModuleManager.write_moduleInstance instance
                          >> ModuleManager._patchModule host) in
               get_this) s1).
  { unfold result, ModuleManager.initialize, ModuleManager._initializeModule.
    unfold bind at 1. unfold set_this at 1. fold constructed.
    unfold bind at 1. unfold bind at 1. unfold get_this at 1.
    unfold bind at 1. simpl. fold constructed. rewrite Hconfig.
    reflexivity. }
  split.
  - intros e e2 Hcall. split; [|done]. rewrite Hresult.
    unfold bind, hostcall. rewrite Hcall. by rewrite Hthis.
  - intros instance e2 Hcall. rewrite Hresult.
    unfold bind, hostcall. rewrite Hcall.
    unfold ModuleManager.write_moduleInstance. simpl.
    match goal with |- context [ModuleManager._patchModule host ?st] =>
      pose proof (this_patchModule host st) as Hpatch;
      destruct (ModuleManager._patchModule host st) as [[v|e] s3]
    end; simpl in *; rewrite Hpatch, Hthis.
    + split; [done|]. intros manager [= <-]. done.
    + split; [done|]. intros manager [=].
Qed.

(** On the sample host, without a console element, the factory returns
    the sample module. *)
Lemma initialize_outcomes_witness :
  _moduleInstance
    (this (snd (ModuleManager.initialize Sample.host Sample.moduleFactory
                  Sample.componentElement Sample.canvasElement VUndefined ∅
                  Sample.state)))
  = Sample.module.
Proof.
  pose proof (initialize_outcomes Sample.host Sample.moduleFactory
                Sample.componentElement Sample.canvasElement VUndefined ∅
                _ Sample.state _ eq_refl) as [_ Hreturns].
  by rewrite (proj1 (Hreturns Sample.module tt eq_refl)).
Defined.

(** ** Before initialization *)

(** X15. On a manager without a module instance, as the constructor
    leaves it, [callMain], [pauseMainLoop] and [resumeMainLoop] end with a
    [TypeError] and [abort] ends normally; none of them calls the host or
    changes anything. *)
Theorem methods_before_initialization {E} (host : Host E) (s : State E)
    (args what : Value) :
  _moduleInstance (this s) = VUndefined ->
  ModuleManager.callMain host args s = (Throw TypeError, s)
  /\ ModuleManager.pauseMainLoop host s = (Throw TypeError, s)
  /\ ModuleManager.resumeMainLoop host s = (Throw TypeError, s)
  /\ ModuleManager.abort host what s = (Ok VUndefined, s).
Proof.
  intros Habsent.
  unfold ModuleManager.callMain, ModuleManager.pauseMainLoop,
    ModuleManager.resumeMainLoop, ModuleManager.abort, try_catch, bind, get_this.
  rewrite Habsent. by repeat split.
Qed.

(** The manager fresh from the constructor. *)
Lemma methods_before_initialization_witness :
  let s : State unit :=
    {| this := ModuleManager.constructor Sample.moduleFactory
                 Sample.componentElement Sample.canvasElement
                 Sample.consoleElement ∅;
       env := tt; trace := [] |} in
  ModuleManager.callMain Sample.host VUndefined s = (Throw TypeError, s).
Proof.
  intros s.
  apply (proj1 (methods_before_initialization Sample.host s VUndefined
                  VUndefined eq_refl)).
Defined.

(** ** The fix-ups *)

(** X16. [_fixCanvasViewport] asks the canvas for its [webgl] context.
    Without one ([getContext] returns a falsy value) it makes no other
    call; with one it calls the context's [viewport] once, at the origin,
    with the width and height the canvas has at that moment. *)
Theorem fixCanvasViewport_calls {E} (host : Host E) (s : State E)
    (gl : Value) (e1 : E) :
  let canvas := __canvasElement (this s) in
  let getContext := Invoke canvas "getContext" [AVal (VStr "webgl")] in
  is_object canvas = true ->
  host_call host getContext (env s) = (Ok gl, e1) ->
  (truthy gl = false ->
     ModuleManager._fixCanvasViewport host s
     = (Ok VUndefined,
        {| this := this s; env := e1;
           trace := (trace s ++ [getContext])%list |}))
  /\ (truthy gl = true ->
      is_object gl = true ->
      calls_made (ModuleManager._fixCanvasViewport host) s
      = [ getContext;
          Invoke gl "viewport"
            [ AVal (VNum 0); AVal (VNum 0);
              AVal (host_read host e1 canvas "width");
              AVal (host_read host e1 canvas "height") ] ]).
Proof.
  intros canvas getContext Hcanvas Hcall.
  assert (Hinvoke : invoke host canvas "getContext" [AVal (VStr "webgl")] s
                    = (Ok gl, {| this := this s; env := e1;
                                 trace := (trace s ++ [getContext])%list |})).
  { destruct canvas as [| | | | |[]] eqn:Hc; try discriminate; simpl;
      unfold hostcall; fold getContext; by rewrite Hcall. }
  split.
  - intros Hnone. unfold ModuleManager._fixCanvasViewport.
    unfold bind at 1. unfold get_this at 1. unfold bind at 1.
    fold canvas. rewrite Hinvoke. by rewrite Hnone.
  - intros Hsome Hgl. apply calls_made_spec.
    unfold ModuleManager._fixCanvasViewport.
    unfold bind at 1. unfold get_this at 1. unfold bind at 1.
    fold canvas. rewrite Hinvoke. rewrite Hsome.
    unfold bind, get_this. simpl. fold canvas.
    assert (Hread : forall p st,
              get_prop host canvas p st = (Ok (host_read host (env st) canvas p), st)).
    { intros p st. unfold get_prop.
      by destruct canvas as [| | | | |[]]. }
    rewrite !Hread. simpl.
    destruct gl as [| | | | |[]]; try discriminate; simpl; unfold hostcall;
      simpl; destruct (host_call host _ e1) as [[v|e] e2]; simpl;
      by rewrite <- app_assoc.
Qed.

(** The sample canvas has no [webgl] context. *)
Lemma fixCanvasViewport_calls_witness :
  ModuleManager._fixCanvasViewport Sample.host Sample.state
  = (Ok VUndefined,
     {| this := Sample.manager; env := tt;
        trace := [Invoke Sample.canvasElement "getContext" [AVal (VStr "webgl")]] |}).
Proof.
  apply (proj1 (fixCanvasViewport_calls Sample.host Sample.state VUndefined tt
                  eq_refl eq_refl) eq_refl).
Defined.

(** X17. With [resizeCanvasOnElementSizing] and
    [resizeCanvasOnFullscreenChange] both off, the handler function put
    around the module's window [resize] handler does what the module's
    handler does, on the same event, and nothing else: around a function
    [f] of the module it makes exactly one call, [f(evt)], leaves the host
    as that call leaves it, and throws what that call throws.  The default
    behaviour is back. *)
Theorem resize_handler_toggles_off {E} (host : Host E) (self : ManagerObject)
    (eventHandler : EventHandler) (evt : Event) (s : State E) :
  target eventHandler = window ->
  eventTypeString eventHandler = "resize" ->
  truthy (prop (__options self) "resizeCanvasOnElementSizing") = false ->
  truthy (prop (__options self) "resizeCanvasOnFullscreenChange") = false ->
  let original := handlerFunc eventHandler in
  let patched := handlerFunc (ModuleManager.patchEventHandler self eventHandler) in
  let after := ModuleManager.run_handler host patched evt s in
  snd after = snd (ModuleManager.run_handler host original evt s)
  /\ fst after
     = match fst (ModuleManager.run_handler host original evt s) with
       | Ok _ => Ok VUndefined
       | Throw e => Throw e
       end
  /\ (forall f,
        original = Predefined f ->
        let application := Apply f VUndefined [AEvent evt] in
        calls_made (ModuleManager.run_handler host patched evt) s = [application]
        /\ env (snd after) = snd (host_call host application (env s))
        /\ fst after
           = match fst (host_call host application (env s)) with
             | Ok _ => Ok VUndefined
             | Throw e => Throw e
             end).
Proof.
  intros Htarget Htype Hsizing Hfullscreen original patched after.
  assert (Hkind : ModuleManager.resize_kind eventHandler = true).
  { unfold ModuleManager.resize_kind.
    by rewrite Htarget, strict_eq_refl, Htype. }
  assert (Hrun : ModuleManager.run_handler host patched evt s
                 = (ModuleManager.run_handler host original evt
                    >> ret VUndefined) s).
  { unfold patched. rewrite (patchEventHandler_resize self eventHandler Hkind).
    simpl. rewrite Hsizing. fold original.
    unfold ModuleManager.resizeFixups. rewrite Hfullscreen, Hsizing.
    unfold bind, ret.
    by destruct (ModuleManager.run_handler host original evt s) as [[v|e] s']. }
  unfold after. split; [|split].
  - rewrite Hrun. unfold bind, ret.
    by destruct (ModuleManager.run_handler host original evt s) as [[v|e] s'].
  - rewrite Hrun. unfold bind, ret.
    by destruct (ModuleManager.run_handler host original evt s) as [[v|e] s'].
  - intros f Hf. set (application := Apply f VUndefined [AEvent evt]).
    unfold original in Hf, Hrun. rewrite Hf in Hrun. simpl in Hrun.
    unfold apply in Hrun. fold application in Hrun.
    destruct (host_call host application (env s)) as [[v|e] e'] eqn:Hcall;
      (split; [apply calls_made_spec|]); rewrite Hrun;
      unfold bind, hostcall; by rewrite Hcall.
Qed.

(** The sample resize handler under a manager built with both toggles
    off: a resize of the whole window reaches the module's handler
    [Obj 31], in one call. *)
Lemma resize_handler_toggles_off_witness :
  let userOptions : Object :=
    <["resizeCanvasOnElementSizing" := VBool false]>
    (<["resizeCanvasOnFullscreenChange" := VBool false]> ∅) in
  let self :=
    ModuleManager.constructor Sample.moduleFactory Sample.componentElement
      Sample.canvasElement Sample.consoleElement userOptions in
  calls_made
    (ModuleManager.run_handler Sample.host
       (handlerFunc (ModuleManager.patchEventHandler self Sample.resizeHandler))
       Sample.windowResize) Sample.state
  = [Apply (VRef (Obj 31)) VUndefined [AEvent Sample.windowResize]].
Proof.
  intros userOptions self.
  apply (proj1 (proj2 (proj2 (resize_handler_toggles_off Sample.host self
                  Sample.resizeHandler Sample.windowResize Sample.state
                  eq_refl eq_refl eq_refl eq_refl))
                  (VRef (Obj 31)) eq_refl)).
Defined.

(** ** What the factory receives *)

(** X18. Whenever the configuration for the factory is built, it has
    [noInitialRun] set, so that [main] does not run before the module is
    patched; its [canvas] and [keyboardListeningElement] are the canvas and
    component elements exactly when [redirectCanvasRequests] and
    [captureFocusOnComponent] are on, and [undefined] otherwise; its
    [onAbort] is the adapter's abort handler over the manager's options and
    initial module.  Building it leaves the manager as it was and makes one
    call to the host at most: emptying the console element, when there is
    one. *)
Theorem moduleConfig_fields {E} (host : Host E) (s s1 : State E)
    (config : ModuleConfig) :
  ModuleManager.moduleConfig host s = (Ok config, s1) ->
  let self := this s in
  cfg_noInitialRun config = VBool true
  /\ cfg_canvas config
     = (if truthy (prop (__options self) "redirectCanvasRequests")
        then __canvasElement self else VUndefined)
  /\ cfg_keyboardListeningElement config
     = (if truthy (prop (__options self) "captureFocusOnComponent")
        then __componentElement self else VUndefined)
  /\ cfg_initialModule config = __initialModule self
  /\ cfg_onAbort config = AbortHandler (__options self) (__initialModule self)
  /\ cfg_locateFile config = LocateFile (__wasmPath self)
  /\ this s1 = self
  /\ trace s1
     = (trace s ++
        if truthy (__consoleElement self)
        then [Assign (__consoleElement self) "value" (AVal (VStr ""))]
        else [])%list.
Proof.
  intros Hconfig self.
  unfold ModuleManager.moduleConfig, Manager.__getLocateFile,
    ModuleManager._getAbortHandler, Manager.__getPrintHandler,
    Manager.__getPrintErrHandler in Hconfig.
  unfold bind, get_this, ret in Hconfig. fold self in Hconfig.
  destruct (get_prop host (__initialModule self) "print" s)
    as [[print|e] sa] eqn:Hprint; [|discriminate].
  assert (sa = s) as ->.
  { unfold get_prop in Hprint.
    destruct (__initialModule self) as [| | | | |[]]; congruence. }
  destruct (instanceof host print "Function" s) as [[isFunction|e] sb] eqn:Hfun;
    [|discriminate].
  assert (sb = s) as ->.
  { unfold instanceof in Hfun. destruct print as [| | | | |[]]; congruence. }
  fold self in Hconfig.
  destruct (truthy (__consoleElement self)) eqn:Hconsole.
  - destruct (assign host (__consoleElement self) "value" (AVal (VStr "")) s)
      as [[v|e] sc] eqn:Hassign; [|discriminate].
    assert (Hsc : this sc = self
                  /\ trace sc = (trace s ++ [Assign (__consoleElement self)
                                               "value" (AVal (VStr ""))])%list).
    { unfold assign in Hassign.
      destruct (__consoleElement self) as [| | | | |]; try discriminate;
        unfold hostcall in Hassign;
        destruct (host_call host _ (env s)) as [res e']; by injection Hassign as _ <-. }
    destruct Hsc as [Hsc_this Hsc_trace].
    rewrite Hsc_this in Hconfig.
    destruct (get_prop host (__initialModule self) "printErr" sc)
      as [[printErr|e] sd] eqn:HprintErr; [|discriminate].
    assert (sd = sc) as ->.
    { unfold get_prop in HprintErr.
      destruct (__initialModule self) as [| | | | |[]]; congruence. }
    destruct (instanceof host printErr "Function" sc) as [[isFunction'|e] se] eqn:Hfun';
      [|discriminate].
    assert (se = sc) as ->.
    { unfold instanceof in Hfun'. destruct printErr as [| | | | |[]]; congruence. }
    injection Hconfig as <- <-. simpl. by repeat split.
  - simpl in Hconfig. fold self in Hconfig.
    destruct (get_prop host (__initialModule self) "printErr" s)
      as [[printErr|e] sd] eqn:HprintErr; [|discriminate].
    assert (sd = s) as ->.
    { unfold get_prop in HprintErr.
      destruct (__initialModule self) as [| | | | |[]]; congruence. }
    destruct (instanceof host printErr "Function" s) as [[isFunction'|e] se] eqn:Hfun';
      [|discriminate].
    assert (se = s) as ->.
    { unfold instanceof in Hfun'. destruct printErr as [| | | | |[]]; congruence. }
    injection Hconfig as <- <-. simpl. rewrite app_nil_r. by repeat split.
Qed.

(** The configuration of the sample manager, whose console element is
    emptied first. *)
Lemma moduleConfig_fields_witness :
  let config :=
    {| cfg_locateFile := LocateFile VUndefined;
       cfg_initialModule := VRef EmptyObject;
       cfg_noInitialRun := VBool true;
       cfg_keyboardListeningElement := Sample.componentElement;
       cfg_canvas := Sample.canvasElement;
       cfg_onAbort := AbortHandler (__options Sample.manager) (VRef EmptyObject);
       cfg_print := PrintHandler VNull Sample.consoleElement;
       cfg_printErr := PrintErrHandler VNull |} in
  let s1 : State unit :=
    {| this := Sample.manager; env := tt;
       trace := [Assign Sample.consoleElement "value" (AVal (VStr ""))] |} in
  ModuleManager.moduleConfig Sample.host Sample.state = (Ok config, s1)
  /\ cfg_canvas config
     = (if truthy (prop (__options Sample.manager) "redirectCanvasRequests")
        then Sample.canvasElement else VUndefined).
Proof.
  intros config s1. split; [reflexivity|].
  apply (proj1 (proj2 (moduleConfig_fields Sample.host Sample.state s1 config
                         eq_refl))).
Defined.

(** ** The remaining patches *)

(** X19. [_patchCanvasQueries] does nothing at all when
    [redirectCanvasRequests] is off or the canvas is not an [HTMLElement].
    Otherwise it makes one assignment, of the canvas element to
    [specialHTMLTargets['#canvas']] of the module; on a module without
    [specialHTMLTargets] it throws a [TypeError] instead. *)
Theorem patchCanvasQueries_cases {E} (host : Host E) (s : State E)
    (isElement : bool) (targets : Value) :
  let self := this s in
  instanceof host (__canvasElement self) "HTMLElement" s = (Ok isElement, s) ->
  get_prop host (_moduleInstance self) "specialHTMLTargets" s = (Ok targets, s) ->
  (truthy (prop (__options self) "redirectCanvasRequests") = false
   \/ isElement = false ->
   ModuleManager._patchCanvasQueries host s = (Ok VUndefined, s))
  /\ (truthy (prop (__options self) "redirectCanvasRequests") = true ->
      isElement = true ->
      (targets = VUndefined \/ targets = VNull ->
         ModuleManager._patchCanvasQueries host s = (Throw TypeError, s))
      /\ (truthy targets = true ->
          calls_made (ModuleManager._patchCanvasQueries host) s
          = [Assign targets "#canvas" (AVal (__canvasElement self))])).
Proof.
  intros self Helement Htargets. split.
  - intros Hskip. unfold ModuleManager._patchCanvasQueries, bind, get_this.
    fold self.
    destruct (truthy (prop (__options self) "redirectCanvasRequests")); simpl;
      [|done].
    rewrite Helement. by destruct Hskip as [ ? | -> ].
  - intros Hon ->. split.
    + intros Hmissing. unfold ModuleManager._patchCanvasQueries, bind, get_this.
      fold self. rewrite Hon. simpl. rewrite Helement, Htargets.
      by destruct Hmissing as [-> | ->].
    + intros Hobject. apply calls_made_spec.
      unfold ModuleManager._patchCanvasQueries, bind, get_this.
      fold self. rewrite Hon. simpl. rewrite Helement, Htargets.
      destruct targets as [| | | | |]; try discriminate; simpl;
        unfold hostcall; by destruct (host_call host _ (env s)) as [[v|e] e'].
Qed.

(** On the sample module, whose [specialHTMLTargets] is [Obj 8]. *)
Lemma patchCanvasQueries_cases_witness :
  calls_made (ModuleManager._patchCanvasQueries Sample.host) Sample.state
  = [Assign (VRef (Obj 8)) "#canvas" (AVal Sample.canvasElement)].
Proof.
  apply (proj2 (proj2 (patchCanvasQueries_cases Sample.host Sample.state true
                         (VRef (Obj 8)) eq_refl eq_refl) eq_refl eq_refl)
           eq_refl).
Defined.

(** X20. [_patchGlViewport] does nothing at all when
    [adjustViewportByDevicePixelRatio] is off or the module has no [GL].
    Otherwise it makes one assignment, replacing [GL.createContext] by a
    closure around the function that was there. *)
Theorem patchGlViewport_cases {E} (host : Host E) (s : State E) (GL : Value) :
  let self := this s in
  get_prop host (_moduleInstance self) "GL" s = (Ok GL, s) ->
  (truthy (prop (__options self) "adjustViewportByDevicePixelRatio") = false
   \/ truthy GL = false ->
   ModuleManager._patchGlViewport host s = (Ok VUndefined, s))
  /\ (truthy (prop (__options self) "adjustViewportByDevicePixelRatio") = true ->
      truthy GL = true ->
      forall predefinedCreateContext,
        get_prop host GL "createContext" s = (Ok predefinedCreateContext, s) ->
        calls_made (ModuleManager._patchGlViewport host) s
        = [Assign GL "createContext"
             (AClosure (PatchedCreateContext GL predefinedCreateContext))]).
Proof.
  intros self HGL. split.
  - intros Hskip. unfold ModuleManager._patchGlViewport, bind, get_this.
    fold self.
    destruct (truthy (prop (__options self) "adjustViewportByDevicePixelRatio"));
      simpl; [|done].
    rewrite HGL. by destruct Hskip as [ ? | -> ].
  - intros Hon Hobject predefinedCreateContext Hpredefined.
    apply calls_made_spec.
    unfold ModuleManager._patchGlViewport, bind, get_this.
    fold self. rewrite Hon. simpl. rewrite HGL, Hobject. simpl.
    rewrite Hpredefined.
    destruct GL as [| | | | |]; try discriminate; simpl;
      unfold hostcall; by destruct (host_call host _ (env s)) as [[v|e] e'].
Qed.

(** On the sample module, whose [GL] is [Obj 1]. *)
Lemma patchGlViewport_cases_witness :
  calls_made (ModuleManager._patchGlViewport Sample.host) Sample.state
  = [Assign (VRef (Obj 1)) "createContext"
       (AClosure (PatchedCreateContext (VRef (Obj 1)) (VRef (Obj 21))))].
Proof.
  apply (proj2 (patchGlViewport_cases Sample.host Sample.state (VRef (Obj 1))
                  eq_refl) eq_refl eq_refl (VRef (Obj 21)) eq_refl).
Defined.

(** X21. [_attachFocusInvokers] does nothing at all when
    [captureFocusOnComponent] is off or the canvas is not an [HTMLElement].
    Otherwise it registers on the canvas, in the capture phase, one and the
    same closure for [mousedown] and then for [touchstart]; that closure,
    when run, makes one call: [focus] on the component element. *)
Theorem attachFocusInvokers_cases {E} (host : Host E) (s : State E)
    (isElement : bool) :
  let self := this s in
  let canvas := __canvasElement self in
  let handler := FocusInvoker (__componentElement self) in
  let listen := fun type =>
    Invoke canvas "addEventListener"
      [AVal (VStr type); AClosure handler; AVal (VBool true)] in
  instanceof host canvas "HTMLElement" s = (Ok isElement, s) ->
  (truthy (prop (__options self) "captureFocusOnComponent") = false
   \/ isElement = false ->
   ModuleManager._attachFocusInvokers host s = (Ok VUndefined, s))
  /\ (truthy (prop (__options self) "captureFocusOnComponent") = true ->
      isElement = true ->
      is_object canvas = true ->
      forall v e1,
        host_call host (listen "mousedown") (env s) = (Ok v, e1) ->
        calls_made (ModuleManager._attachFocusInvokers host) s
        = [listen "mousedown"; listen "touchstart"])
  /\ (is_object (__componentElement self) = true ->
      forall s',
        calls_made (ModuleManager.focusInvoker host (__componentElement self)) s'
        = [Invoke (__componentElement self) "focus" []]).
Proof.
  intros self canvas handler listen Helement. split; [|split].
  - intros Hskip. unfold ModuleManager._attachFocusInvokers, bind, get_this.
    fold self canvas.
    destruct (truthy (prop (__options self) "captureFocusOnComponent")); simpl;
      [|done].
    rewrite Helement. by destruct Hskip as [ ? | -> ].
  - intros Hon -> Hobject v e1 Hfirst. apply calls_made_spec.
    unfold ModuleManager._attachFocusInvokers, bind, get_this.
    fold self canvas. rewrite Hon. simpl. rewrite Helement.
    fold handler. unfold listen in *.
    destruct canvas as [| | | | |[]]; try discriminate; simpl;
      unfold hostcall; rewrite Hfirst; simpl;
      destruct (host_call host _ e1) as [[v'|e] e2]; simpl;
      by rewrite <- app_assoc.
  - intros Hobject s'. apply calls_made_spec.
    unfold ModuleManager.focusInvoker, bind.
    destruct (__componentElement self) as [| | | | |[]]; try discriminate;
      simpl; unfold hostcall;
      by destruct (host_call host _ (env s')) as [[v|e] e'].
Qed.

(** On the sample host, whose canvas is an element. *)
Lemma attachFocusInvokers_cases_witness :
  calls_made (ModuleManager._attachFocusInvokers Sample.host) Sample.state
  = [ Invoke Sample.canvasElement "addEventListener"
        [ AVal (VStr "mousedown");
          AClosure (FocusInvoker Sample.componentElement); AVal (VBool true) ];
      Invoke Sample.canvasElement "addEventListener"
        [ AVal (VStr "touchstart");
          AClosure (FocusInvoker Sample.componentElement); AVal (VBool true) ] ].
Proof.
  apply (proj1 (proj2 (attachFocusInvokers_cases Sample.host Sample.state true
                         eq_refl)) eq_refl eq_refl eq_refl VUndefined tt eq_refl).
Defined.

(** X22. [_fixCanvasSizing] measures the canvas once and reads the device
    pixel ratio once, and then sets the backing store of the canvas: first
    [width], then [height], each the measured dimension times that one
    ratio. *)
Theorem fixCanvasSizing_calls {E} (host : Host E) (s : State E)
    (rect v : Value) (e1 e2 : E) :
  let canvas := __canvasElement (this s) in
  let measure := Invoke canvas "getBoundingClientRect" [] in
  let dpr := host_read host e1 window "devicePixelRatio" in
  let setWidth :=
    Assign canvas "width"
      (AVal (host_times host (host_read host e1 rect "width") dpr)) in
  let setHeight :=
    Assign canvas "height"
      (AVal (host_times host (host_read host e2 rect "height") dpr)) in
  is_object canvas = true ->
  is_object rect = true ->
  host_call host measure (env s) = (Ok rect, e1) ->
  host_call host setWidth e1 = (Ok v, e2) ->
  calls_made (ModuleManager._fixCanvasSizing host) s
  = [measure; setWidth; setHeight].
Proof.
  intros canvas measure dpr setWidth setHeight Hcanvas Hrect Hmeasure Hwidth.
  apply calls_made_spec.
  assert (Hread : forall p st,
            get_prop host rect p st = (Ok (host_read host (env st) rect p), st)).
  { intros p st. unfold get_prop. by destruct rect as [| | | | |[]]. }
  assert (Hinvoke : invoke host canvas "getBoundingClientRect" [] = hostcall host measure).
  { by destruct canvas as [| | | | |[]]. }
  assert (Hassign : forall p a, assign host canvas p a = hostcall host (Assign canvas p a)).
  { intros p a. by destruct canvas as [| | | | |[]]. }
  unfold ModuleManager._fixCanvasSizing, bind, get_this. fold canvas.
  rewrite Hinvoke. unfold hostcall at 1. rewrite Hmeasure. simpl.
  fold canvas. rewrite Hread. simpl. rewrite Hassign.
  unfold hostcall at 1. simpl. fold dpr. fold setWidth. rewrite Hwidth. simpl.
  fold canvas. rewrite Hread. simpl. rewrite Hassign.
  unfold hostcall. simpl. fold setHeight.
  destruct (host_call host setHeight e2) as [[v'|e] e3]; simpl;
    by rewrite <- !app_assoc.
Qed.

(** On the demo host, where the canvas measures as [Obj 43]. *)
Lemma fixCanvasSizing_calls_witness :
  calls_made (ModuleManager._fixCanvasSizing Demo.host) Sample.state
  = [ Invoke Sample.canvasElement "getBoundingClientRect" [];
      Assign Sample.canvasElement "width" (AVal VUndefined);
      Assign Sample.canvasElement "height" (AVal VUndefined) ].
Proof.
  apply (fixCanvasSizing_calls Demo.host Sample.state (VRef (Obj 43))
           VUndefined tt tt eq_refl eq_refl eq_refl eq_refl).
Defined.
